(** * Website audit pipeline ([src/lib/audit.ts])

    A shallow embedding of the audit pipeline: the report record, the pure
    helpers (performance estimate, image inspection, scoring), and the
    effectful stages (primary fetch, link sampling, redirect check,
    robots/sitemap probes) written in a small state-and-exception monad
    whose state holds the outside world, the log of calls that left the
    module, and the one mutable [result] object of [runAudit].

    Numbers.  Every number the pipeline handles is an integer (a status
    code, a difference of two [Date.now()] readings, a length) except inside
    [estimateMetrics], where a length is divided by 100 and a random factor
    is multiplied by 800.  The program computes those on binary64 values;
    here they are idealised as exact rationals.  The idealisation agrees
    with the program on the time to first byte, which is an integer, and on
    a body of size 0; the other two estimates may differ from the program's
    by a rounding step, so no property below states their value for a
    general input.
    Strings are sequences of code units, one [ascii] each. *)

From Stdlib Require Import String Ascii List ZArith QArith Qminmax Qround Bool Lia Lqa.
Import ListNotations.

#[local] Open Scope Z_scope.
#[local] Open Scope string_scope.
#[local] Open Scope list_scope.

(* ------------------------------------------------------------------ *)
(** ** JavaScript string primitives used by the pipeline *)

(** [s.startsWith(p)] *)
Definition startsWith (s p : string) : bool := String.prefix p s.

(** [s.includes(sub)] *)
Fixpoint includes (s sub : string) : bool :=
  String.prefix sub s ||
  match s with
  | EmptyString => false
  | String _ s' => includes s' sub
  end.

(** [s.slice(0, n)] *)
Definition slice0 (n : nat) (s : string) : string := String.substring 0 n s.

(** Truthiness of a string: only the empty string is falsy. *)
Definition truthy (s : string) : bool := negb (s =? "").

(** [x || ''] for [x : string | undefined]. *)
Definition or_empty (x : option string) : string :=
  match x with
  | Some s => s
  | None => ""
  end.

(** [x || undefined] for [x : string | undefined]. *)
Definition or_undefined (x : option string) : option string :=
  match x with
  | Some s => if truthy s then Some s else None
  | None => None
  end.

(** White space and line terminators stripped by [String.prototype.trim],
    among the code units below 256: TAB, LF, VT, FF, CR, SP, NBSP. *)
Definition is_space (c : ascii) : bool :=
  let n := nat_of_ascii c in
  existsb (Nat.eqb n) [9; 10; 11; 12; 13; 32; 160]%nat.

Fixpoint trim_start (s : string) : string :=
  match s with
  | EmptyString => EmptyString
  | String c s' => if is_space c then trim_start s' else s
  end.

Fixpoint trim_end (s : string) : string :=
  match s with
  | EmptyString => EmptyString
  | String c s' =>
      let t := trim_end s' in
      if is_space c && (t =? "") then EmptyString else String c t
  end.

(** [s.trim()] *)
Definition trim (s : string) : string := trim_end (trim_start s).

(** [s.replace(/^www\./, '')] *)
Definition strip_www_dot (s : string) : string :=
  if String.prefix "www." s
  then String.substring 4 (String.length s - 4) s
  else s.

(** The double-quote code unit, for patterns and selectors that contain it. *)
Definition dq : string := String (ascii_of_nat 34) EmptyString.

(* ------------------------------------------------------------------ *)
(** ** Values exchanged with the host *)

(** A thrown value [err]; [exn_message] is [err?.message], [exn_string] is
    [String(err)]. *)
Record Exn : Type := mkExn {
  exn_message : option string;
  exn_string : string
}.

(** [String(err?.message ?? err)] *)
Definition describe (err : Exn) : string :=
  match exn_message err with
  | Some m => m
  | None => exn_string err
  end.

(** A [fetch] response: status, final URL after redirects, header lookup and
    the outcome of reading the body with [res.text()]. *)
Record Response : Type := mkResponse {
  res_status : Z;
  res_url : string;
  headers_get : string -> option string;
  res_text : Exn + string
}.

(** [res.ok]: the status is in the range 200-299. *)
Definition ok (r : Response) : bool :=
  ((200 <=? res_status r) && (res_status r <=? 299))%Z.

(** An element of the parsed tree, seen through [.attr(name)] and [.text()]. *)
Record Element : Type := mkElement {
  attr : string -> option string;
  text : string
}.

(** The value [$] returned by [cheerio.load]: selection by selector string,
    in document order. *)
Record CheerioAPI : Type := mkCheerio {
  select : string -> list Element
}.

(** [sel.first().text()]: the text of the first selected element, or the
    empty string for an empty selection. *)
Definition first_text (sel : list Element) : string :=
  match sel with
  | [] => ""
  | el :: _ => text el
  end.

(** [sel.attr(name)]: the attribute of the first selected element. *)
Definition sel_attr (sel : list Element) (name : string) : option string :=
  match sel with
  | [] => None
  | el :: _ => attr el name
  end.

Inductive Method : Type := GET | HEAD.

(** Calls that leave the module. *)
Inductive Op : Type :=
| OpNow                                   (* Date.now() *)
| OpRandom                                (* Math.random() *)
| OpFetch (m : Method) (target : string)  (* fetch(target, {method, redirect:'follow'}) *)
| OpLoad (html : string).                 (* cheerio.load(html) *)

Definition Ans (o : Op) : Type :=
  match o with
  | OpNow => Z
  | OpRandom => Q
  | OpFetch _ _ => (Exn + Response)%type
  | OpLoad _ => (Exn + CheerioAPI)%type
  end.

(** The pure part of the host: the WHATWG [URL] class and the regular
    expression engine. *)
Class Host : Type := mkHost {
  URL : Type;
  (** [new URL(input, base)]; [None] when the constructor throws. *)
  url_parse : string -> option string -> option URL;
  hostname : URL -> string;
  origin : URL -> string;
  protocol : URL -> string;
  (** [u.toString()] *)
  href : URL -> string;
  (** [u.hostname = h] and [u.protocol = p] *)
  set_hostname : URL -> string -> URL;
  set_protocol : URL -> string -> URL;
  (** [new RegExp(source, flags).test(s)] on a fresh expression *)
  regexp_test : string -> string -> string -> bool
}.

(** The effectful part of the host: a world that answers each call and
    moves on. *)
Class Runtime : Type := mkRuntime {
  World : Type;
  oracle : forall o : Op, World -> Ans o * World
}.

(* ------------------------------------------------------------------ *)
(** ** The report *)

Record ImageIssue : Type := mkImageIssue {
  src : string;
  alt : bool;
  missingFormats : bool;
  oversized : bool
}.

Record LinkIssue : Type := mkLinkIssue {
  link_url : string;
  statusCode : option Z;
  broken : bool
}.

Inductive RedirectType : Type := Www | NonWww | HttpHttps | Other.

Record RedirectIssue : Type := mkRedirectIssue {
  type : RedirectType;
  message : string
}.

Record AuditResult : Type := mkAuditResult {
  url : string;
  status : option Z;
  responseTimeMs : option Z;
  contentType : option string;
  title : option string;
  metaDescription : option string;
  h1Count : option Z;
  totalImages : option Z;
  imgWithoutAlt : option Z;
  imageIssues : option (list ImageIssue);
  totalLinks : option Z;
  brokenLinks : option (list LinkIssue);
  externalLinks : option Z;
  scriptsCount : option Z;
  inlineStylesCount : option Z;
  hasRobots : option bool;
  hasSitemap : option bool;
  ttfbMs : option Z;
  fcpMs : option Z;
  lcpMs : option Z;
  hasViewport : option bool;
  responsive : option bool;
  isHttps : option bool;
  hasHsts : option bool;
  hasMixedContent : option bool;
  redirects : option (list RedirectIssue);
  score : option Z;
  error : option string
}.

(** Field assignment [result.f = v]: one functional update for each field
    that is written after the object literal of lines 212-241. *)
Definition with_status (v : option Z) (r : AuditResult) : AuditResult :=
  mkAuditResult r.(url) v r.(responseTimeMs) r.(contentType) r.(title)
    r.(metaDescription) r.(h1Count) r.(totalImages) r.(imgWithoutAlt)
    r.(imageIssues) r.(totalLinks) r.(brokenLinks) r.(externalLinks)
    r.(scriptsCount) r.(inlineStylesCount) r.(hasRobots) r.(hasSitemap)
    r.(ttfbMs) r.(fcpMs) r.(lcpMs) r.(hasViewport) r.(responsive)
    r.(isHttps) r.(hasHsts) r.(hasMixedContent) r.(redirects) r.(score)
    r.(error).
Definition with_responseTimeMs (v : option Z) (r : AuditResult) : AuditResult :=
  mkAuditResult r.(url) r.(status) v r.(contentType) r.(title)
    r.(metaDescription) r.(h1Count) r.(totalImages) r.(imgWithoutAlt)
    r.(imageIssues) r.(totalLinks) r.(brokenLinks) r.(externalLinks)
    r.(scriptsCount) r.(inlineStylesCount) r.(hasRobots) r.(hasSitemap)
    r.(ttfbMs) r.(fcpMs) r.(lcpMs) r.(hasViewport) r.(responsive)
    r.(isHttps) r.(hasHsts) r.(hasMixedContent) r.(redirects) r.(score)
    r.(error).
Definition with_contentType (v : option string) (r : AuditResult) : AuditResult :=
  mkAuditResult r.(url) r.(status) r.(responseTimeMs) v r.(title)
    r.(metaDescription) r.(h1Count) r.(totalImages) r.(imgWithoutAlt)
    r.(imageIssues) r.(totalLinks) r.(brokenLinks) r.(externalLinks)
    r.(scriptsCount) r.(inlineStylesCount) r.(hasRobots) r.(hasSitemap)
    r.(ttfbMs) r.(fcpMs) r.(lcpMs) r.(hasViewport) r.(responsive)
    r.(isHttps) r.(hasHsts) r.(hasMixedContent) r.(redirects) r.(score)
    r.(error).
Definition with_title (v : option string) (r : AuditResult) : AuditResult :=
  mkAuditResult r.(url) r.(status) r.(responseTimeMs) r.(contentType) v
    r.(metaDescription) r.(h1Count) r.(totalImages) r.(imgWithoutAlt)
    r.(imageIssues) r.(totalLinks) r.(brokenLinks) r.(externalLinks)
    r.(scriptsCount) r.(inlineStylesCount) r.(hasRobots) r.(hasSitemap)
    r.(ttfbMs) r.(fcpMs) r.(lcpMs) r.(hasViewport) r.(responsive)
    r.(isHttps) r.(hasHsts) r.(hasMixedContent) r.(redirects) r.(score)
    r.(error).
Definition with_metaDescription (v : option string) (r : AuditResult) : AuditResult :=
  mkAuditResult r.(url) r.(status) r.(responseTimeMs) r.(contentType)
    r.(title) v r.(h1Count) r.(totalImages) r.(imgWithoutAlt)
    r.(imageIssues) r.(totalLinks) r.(brokenLinks) r.(externalLinks)
    r.(scriptsCount) r.(inlineStylesCount) r.(hasRobots) r.(hasSitemap)
    r.(ttfbMs) r.(fcpMs) r.(lcpMs) r.(hasViewport) r.(responsive)
    r.(isHttps) r.(hasHsts) r.(hasMixedContent) r.(redirects) r.(score)
    r.(error).
Definition with_h1Count (v : option Z) (r : AuditResult) : AuditResult :=
  mkAuditResult r.(url) r.(status) r.(responseTimeMs) r.(contentType)
    r.(title) r.(metaDescription) v r.(totalImages) r.(imgWithoutAlt)
    r.(imageIssues) r.(totalLinks) r.(brokenLinks) r.(externalLinks)
    r.(scriptsCount) r.(inlineStylesCount) r.(hasRobots) r.(hasSitemap)
    r.(ttfbMs) r.(fcpMs) r.(lcpMs) r.(hasViewport) r.(responsive)
    r.(isHttps) r.(hasHsts) r.(hasMixedContent) r.(redirects) r.(score)
    r.(error).
Definition with_totalImages (v : option Z) (r : AuditResult) : AuditResult :=
  mkAuditResult r.(url) r.(status) r.(responseTimeMs) r.(contentType)
    r.(title) r.(metaDescription) r.(h1Count) v r.(imgWithoutAlt)
    r.(imageIssues) r.(totalLinks) r.(brokenLinks) r.(externalLinks)
    r.(scriptsCount) r.(inlineStylesCount) r.(hasRobots) r.(hasSitemap)
    r.(ttfbMs) r.(fcpMs) r.(lcpMs) r.(hasViewport) r.(responsive)
    r.(isHttps) r.(hasHsts) r.(hasMixedContent) r.(redirects) r.(score)
    r.(error).
Definition with_imgWithoutAlt (v : option Z) (r : AuditResult) : AuditResult :=
  mkAuditResult r.(url) r.(status) r.(responseTimeMs) r.(contentType)
    r.(title) r.(metaDescription) r.(h1Count) r.(totalImages) v
    r.(imageIssues) r.(totalLinks) r.(brokenLinks) r.(externalLinks)
    r.(scriptsCount) r.(inlineStylesCount) r.(hasRobots) r.(hasSitemap)
    r.(ttfbMs) r.(fcpMs) r.(lcpMs) r.(hasViewport) r.(responsive)
    r.(isHttps) r.(hasHsts) r.(hasMixedContent) r.(redirects) r.(score)
    r.(error).
Definition with_imageIssues (v : option (list ImageIssue)) (r : AuditResult) : AuditResult :=
  mkAuditResult r.(url) r.(status) r.(responseTimeMs) r.(contentType)
    r.(title) r.(metaDescription) r.(h1Count) r.(totalImages)
    r.(imgWithoutAlt) v r.(totalLinks) r.(brokenLinks) r.(externalLinks)
    r.(scriptsCount) r.(inlineStylesCount) r.(hasRobots) r.(hasSitemap)
    r.(ttfbMs) r.(fcpMs) r.(lcpMs) r.(hasViewport) r.(responsive)
    r.(isHttps) r.(hasHsts) r.(hasMixedContent) r.(redirects) r.(score)
    r.(error).
Definition with_totalLinks (v : option Z) (r : AuditResult) : AuditResult :=
  mkAuditResult r.(url) r.(status) r.(responseTimeMs) r.(contentType)
    r.(title) r.(metaDescription) r.(h1Count) r.(totalImages)
    r.(imgWithoutAlt) r.(imageIssues) v r.(brokenLinks) r.(externalLinks)
    r.(scriptsCount) r.(inlineStylesCount) r.(hasRobots) r.(hasSitemap)
    r.(ttfbMs) r.(fcpMs) r.(lcpMs) r.(hasViewport) r.(responsive)
    r.(isHttps) r.(hasHsts) r.(hasMixedContent) r.(redirects) r.(score)
    r.(error).
Definition with_brokenLinks (v : option (list LinkIssue)) (r : AuditResult) : AuditResult :=
  mkAuditResult r.(url) r.(status) r.(responseTimeMs) r.(contentType)
    r.(title) r.(metaDescription) r.(h1Count) r.(totalImages)
    r.(imgWithoutAlt) r.(imageIssues) r.(totalLinks) v r.(externalLinks)
    r.(scriptsCount) r.(inlineStylesCount) r.(hasRobots) r.(hasSitemap)
    r.(ttfbMs) r.(fcpMs) r.(lcpMs) r.(hasViewport) r.(responsive)
    r.(isHttps) r.(hasHsts) r.(hasMixedContent) r.(redirects) r.(score)
    r.(error).
Definition with_externalLinks (v : option Z) (r : AuditResult) : AuditResult :=
  mkAuditResult r.(url) r.(status) r.(responseTimeMs) r.(contentType)
    r.(title) r.(metaDescription) r.(h1Count) r.(totalImages)
    r.(imgWithoutAlt) r.(imageIssues) r.(totalLinks) r.(brokenLinks) v
    r.(scriptsCount) r.(inlineStylesCount) r.(hasRobots) r.(hasSitemap)
    r.(ttfbMs) r.(fcpMs) r.(lcpMs) r.(hasViewport) r.(responsive)
    r.(isHttps) r.(hasHsts) r.(hasMixedContent) r.(redirects) r.(score)
    r.(error).
Definition with_scriptsCount (v : option Z) (r : AuditResult) : AuditResult :=
  mkAuditResult r.(url) r.(status) r.(responseTimeMs) r.(contentType)
    r.(title) r.(metaDescription) r.(h1Count) r.(totalImages)
    r.(imgWithoutAlt) r.(imageIssues) r.(totalLinks) r.(brokenLinks)
    r.(externalLinks) v r.(inlineStylesCount) r.(hasRobots) r.(hasSitemap)
    r.(ttfbMs) r.(fcpMs) r.(lcpMs) r.(hasViewport) r.(responsive)
    r.(isHttps) r.(hasHsts) r.(hasMixedContent) r.(redirects) r.(score)
    r.(error).
Definition with_inlineStylesCount (v : option Z) (r : AuditResult) : AuditResult :=
  mkAuditResult r.(url) r.(status) r.(responseTimeMs) r.(contentType)
    r.(title) r.(metaDescription) r.(h1Count) r.(totalImages)
    r.(imgWithoutAlt) r.(imageIssues) r.(totalLinks) r.(brokenLinks)
    r.(externalLinks) r.(scriptsCount) v r.(hasRobots) r.(hasSitemap)
    r.(ttfbMs) r.(fcpMs) r.(lcpMs) r.(hasViewport) r.(responsive)
    r.(isHttps) r.(hasHsts) r.(hasMixedContent) r.(redirects) r.(score)
    r.(error).
Definition with_hasRobots (v : option bool) (r : AuditResult) : AuditResult :=
  mkAuditResult r.(url) r.(status) r.(responseTimeMs) r.(contentType)
    r.(title) r.(metaDescription) r.(h1Count) r.(totalImages)
    r.(imgWithoutAlt) r.(imageIssues) r.(totalLinks) r.(brokenLinks)
    r.(externalLinks) r.(scriptsCount) r.(inlineStylesCount) v
    r.(hasSitemap) r.(ttfbMs) r.(fcpMs) r.(lcpMs) r.(hasViewport)
    r.(responsive) r.(isHttps) r.(hasHsts) r.(hasMixedContent)
    r.(redirects) r.(score) r.(error).
Definition with_hasSitemap (v : option bool) (r : AuditResult) : AuditResult :=
  mkAuditResult r.(url) r.(status) r.(responseTimeMs) r.(contentType)
    r.(title) r.(metaDescription) r.(h1Count) r.(totalImages)
    r.(imgWithoutAlt) r.(imageIssues) r.(totalLinks) r.(brokenLinks)
    r.(externalLinks) r.(scriptsCount) r.(inlineStylesCount) r.(hasRobots)
    v r.(ttfbMs) r.(fcpMs) r.(lcpMs) r.(hasViewport) r.(responsive)
    r.(isHttps) r.(hasHsts) r.(hasMixedContent) r.(redirects) r.(score)
    r.(error).
Definition with_ttfbMs (v : option Z) (r : AuditResult) : AuditResult :=
  mkAuditResult r.(url) r.(status) r.(responseTimeMs) r.(contentType)
    r.(title) r.(metaDescription) r.(h1Count) r.(totalImages)
    r.(imgWithoutAlt) r.(imageIssues) r.(totalLinks) r.(brokenLinks)
    r.(externalLinks) r.(scriptsCount) r.(inlineStylesCount) r.(hasRobots)
    r.(hasSitemap) v r.(fcpMs) r.(lcpMs) r.(hasViewport) r.(responsive)
    r.(isHttps) r.(hasHsts) r.(hasMixedContent) r.(redirects) r.(score)
    r.(error).
Definition with_fcpMs (v : option Z) (r : AuditResult) : AuditResult :=
  mkAuditResult r.(url) r.(status) r.(responseTimeMs) r.(contentType)
    r.(title) r.(metaDescription) r.(h1Count) r.(totalImages)
    r.(imgWithoutAlt) r.(imageIssues) r.(totalLinks) r.(brokenLinks)
    r.(externalLinks) r.(scriptsCount) r.(inlineStylesCount) r.(hasRobots)
    r.(hasSitemap) r.(ttfbMs) v r.(lcpMs) r.(hasViewport) r.(responsive)
    r.(isHttps) r.(hasHsts) r.(hasMixedContent) r.(redirects) r.(score)
    r.(error).
Definition with_lcpMs (v : option Z) (r : AuditResult) : AuditResult :=
  mkAuditResult r.(url) r.(status) r.(responseTimeMs) r.(contentType)
    r.(title) r.(metaDescription) r.(h1Count) r.(totalImages)
    r.(imgWithoutAlt) r.(imageIssues) r.(totalLinks) r.(brokenLinks)
    r.(externalLinks) r.(scriptsCount) r.(inlineStylesCount) r.(hasRobots)
    r.(hasSitemap) r.(ttfbMs) r.(fcpMs) v r.(hasViewport) r.(responsive)
    r.(isHttps) r.(hasHsts) r.(hasMixedContent) r.(redirects) r.(score)
    r.(error).
Definition with_hasViewport (v : option bool) (r : AuditResult) : AuditResult :=
  mkAuditResult r.(url) r.(status) r.(responseTimeMs) r.(contentType)
    r.(title) r.(metaDescription) r.(h1Count) r.(totalImages)
    r.(imgWithoutAlt) r.(imageIssues) r.(totalLinks) r.(brokenLinks)
    r.(externalLinks) r.(scriptsCount) r.(inlineStylesCount) r.(hasRobots)
    r.(hasSitemap) r.(ttfbMs) r.(fcpMs) r.(lcpMs) v r.(responsive)
    r.(isHttps) r.(hasHsts) r.(hasMixedContent) r.(redirects) r.(score)
    r.(error).
Definition with_responsive (v : option bool) (r : AuditResult) : AuditResult :=
  mkAuditResult r.(url) r.(status) r.(responseTimeMs) r.(contentType)
    r.(title) r.(metaDescription) r.(h1Count) r.(totalImages)
    r.(imgWithoutAlt) r.(imageIssues) r.(totalLinks) r.(brokenLinks)
    r.(externalLinks) r.(scriptsCount) r.(inlineStylesCount) r.(hasRobots)
    r.(hasSitemap) r.(ttfbMs) r.(fcpMs) r.(lcpMs) r.(hasViewport) v
    r.(isHttps) r.(hasHsts) r.(hasMixedContent) r.(redirects) r.(score)
    r.(error).
Definition with_isHttps (v : option bool) (r : AuditResult) : AuditResult :=
  mkAuditResult r.(url) r.(status) r.(responseTimeMs) r.(contentType)
    r.(title) r.(metaDescription) r.(h1Count) r.(totalImages)
    r.(imgWithoutAlt) r.(imageIssues) r.(totalLinks) r.(brokenLinks)
    r.(externalLinks) r.(scriptsCount) r.(inlineStylesCount) r.(hasRobots)
    r.(hasSitemap) r.(ttfbMs) r.(fcpMs) r.(lcpMs) r.(hasViewport)
    r.(responsive) v r.(hasHsts) r.(hasMixedContent) r.(redirects)
    r.(score) r.(error).
Definition with_hasHsts (v : option bool) (r : AuditResult) : AuditResult :=
  mkAuditResult r.(url) r.(status) r.(responseTimeMs) r.(contentType)
    r.(title) r.(metaDescription) r.(h1Count) r.(totalImages)
    r.(imgWithoutAlt) r.(imageIssues) r.(totalLinks) r.(brokenLinks)
    r.(externalLinks) r.(scriptsCount) r.(inlineStylesCount) r.(hasRobots)
    r.(hasSitemap) r.(ttfbMs) r.(fcpMs) r.(lcpMs) r.(hasViewport)
    r.(responsive) r.(isHttps) v r.(hasMixedContent) r.(redirects)
    r.(score) r.(error).
Definition with_hasMixedContent (v : option bool) (r : AuditResult) : AuditResult :=
  mkAuditResult r.(url) r.(status) r.(responseTimeMs) r.(contentType)
    r.(title) r.(metaDescription) r.(h1Count) r.(totalImages)
    r.(imgWithoutAlt) r.(imageIssues) r.(totalLinks) r.(brokenLinks)
    r.(externalLinks) r.(scriptsCount) r.(inlineStylesCount) r.(hasRobots)
    r.(hasSitemap) r.(ttfbMs) r.(fcpMs) r.(lcpMs) r.(hasViewport)
    r.(responsive) r.(isHttps) r.(hasHsts) v r.(redirects) r.(score)
    r.(error).
Definition with_redirects (v : option (list RedirectIssue)) (r : AuditResult) : AuditResult :=
  mkAuditResult r.(url) r.(status) r.(responseTimeMs) r.(contentType)
    r.(title) r.(metaDescription) r.(h1Count) r.(totalImages)
    r.(imgWithoutAlt) r.(imageIssues) r.(totalLinks) r.(brokenLinks)
    r.(externalLinks) r.(scriptsCount) r.(inlineStylesCount) r.(hasRobots)
    r.(hasSitemap) r.(ttfbMs) r.(fcpMs) r.(lcpMs) r.(hasViewport)
    r.(responsive) r.(isHttps) r.(hasHsts) r.(hasMixedContent) v r.(score)
    r.(error).
Definition with_score (v : option Z) (r : AuditResult) : AuditResult :=
  mkAuditResult r.(url) r.(status) r.(responseTimeMs) r.(contentType)
    r.(title) r.(metaDescription) r.(h1Count) r.(totalImages)
    r.(imgWithoutAlt) r.(imageIssues) r.(totalLinks) r.(brokenLinks)
    r.(externalLinks) r.(scriptsCount) r.(inlineStylesCount) r.(hasRobots)
    r.(hasSitemap) r.(ttfbMs) r.(fcpMs) r.(lcpMs) r.(hasViewport)
    r.(responsive) r.(isHttps) r.(hasHsts) r.(hasMixedContent)
    r.(redirects) v r.(error).
Definition with_error (v : option string) (r : AuditResult) : AuditResult :=
  mkAuditResult r.(url) r.(status) r.(responseTimeMs) r.(contentType)
    r.(title) r.(metaDescription) r.(h1Count) r.(totalImages)
    r.(imgWithoutAlt) r.(imageIssues) r.(totalLinks) r.(brokenLinks)
    r.(externalLinks) r.(scriptsCount) r.(inlineStylesCount) r.(hasRobots)
    r.(hasSitemap) r.(ttfbMs) r.(fcpMs) r.(lcpMs) r.(hasViewport)
    r.(responsive) r.(isHttps) r.(hasHsts) r.(hasMixedContent)
    r.(redirects) r.(score) v.

(** The updates are kept folded during simplification. *)
#[global] Arguments with_status : simpl never.
#[global] Arguments with_responseTimeMs : simpl never.
#[global] Arguments with_contentType : simpl never.
#[global] Arguments with_title : simpl never.
#[global] Arguments with_metaDescription : simpl never.
#[global] Arguments with_h1Count : simpl never.
#[global] Arguments with_totalImages : simpl never.
#[global] Arguments with_imgWithoutAlt : simpl never.
#[global] Arguments with_imageIssues : simpl never.
#[global] Arguments with_totalLinks : simpl never.
#[global] Arguments with_brokenLinks : simpl never.
#[global] Arguments with_externalLinks : simpl never.
#[global] Arguments with_scriptsCount : simpl never.
#[global] Arguments with_inlineStylesCount : simpl never.
#[global] Arguments with_hasRobots : simpl never.
#[global] Arguments with_hasSitemap : simpl never.
#[global] Arguments with_ttfbMs : simpl never.
#[global] Arguments with_fcpMs : simpl never.
#[global] Arguments with_lcpMs : simpl never.
#[global] Arguments with_hasViewport : simpl never.
#[global] Arguments with_responsive : simpl never.
#[global] Arguments with_isHttps : simpl never.
#[global] Arguments with_hasHsts : simpl never.
#[global] Arguments with_hasMixedContent : simpl never.
#[global] Arguments with_redirects : simpl never.
#[global] Arguments with_score : simpl never.
#[global] Arguments with_error : simpl never.

(** The object literal of lines 212-241. *)
Definition initial_result (targetUrl : string) : AuditResult :=
  {| url := targetUrl;
     status := None;
     responseTimeMs := None;
     contentType := None;
     title := None;
     metaDescription := None;
     h1Count := Some 0;
     totalImages := Some 0;
     imgWithoutAlt := Some 0;
     imageIssues := Some [];
     totalLinks := Some 0;
     brokenLinks := Some [];
     externalLinks := Some 0;
     scriptsCount := Some 0;
     inlineStylesCount := Some 0;
     hasRobots := Some false;
     hasSitemap := Some false;
     ttfbMs := Some 0;
     fcpMs := Some 0;
     lcpMs := Some 0;
     hasViewport := Some false;
     responsive := Some false;
     isHttps := Some false;
     hasHsts := Some false;
     hasMixedContent := Some false;
     redirects := Some [];
     score := Some 0;
     error := None |}.

(** Truthiness of an optional boolean, [x ?? d] on optional numbers, and
    [xs?.length ?? 0]. *)
Definition truthy_flag (b : option bool) : bool :=
  match b with
  | Some v => v
  | None => false
  end.

Definition nullish_or {A : Type} (x : option A) (d : A) : A :=
  match x with
  | Some v => v
  | None => d
  end.

Definition length_or_0 {A : Type} (xs : option (list A)) : Z :=
  match xs with
  | Some l => Z.of_nat (List.length l)
  | None => 0
  end.

(* ------------------------------------------------------------------ *)
(** ** Scorer (lines 198-209) *)

Definition calculateScore (result : AuditResult) : Z :=
  let score := 100 in
  let score := if negb (truthy_flag (isHttps result)) then score - 15 else score in
  let score := if negb (truthy_flag (hasViewport result)) then score - 10 else score in
  let score :=
    if nullish_or (imgWithoutAlt result) 0 >? 0
    then score - Z.min 5 (nullish_or (imgWithoutAlt result) 0)
    else score in
  let score :=
    if length_or_0 (brokenLinks result) >? 0
    then score - Z.min 10 (length_or_0 (brokenLinks result) * 2)
    else score in
  let score := if truthy_flag (hasMixedContent result) then score - 10 else score in
  let score :=
    if nullish_or (responseTimeMs result) 0 >? 3000 then score - 5 else score in
  Z.max 0 score.

(* ------------------------------------------------------------------ *)
(** ** Image inspector (lines 97-118) *)

(** [!alt || String(alt).trim() === ''] *)
Definition alt_missing (alt0 : option string) : bool :=
  match alt0 with
  | None => true
  | Some a => negb (truthy a) || (trim a =? "")
  end.

(** The object built at lines 105-110 for one image. *)
Definition image_issue (el : Element) : ImageIssue :=
  let src0 := or_empty (attr el "src") in
  let alt0 := attr el "alt" in
  {| src := slice0 80 src0;
     alt := alt_missing alt0;
     missingFormats := negb (includes src0 ".webp");
     oversized :=
       includes src0 "large" || includes src0 "big" || includes src0 "original" |}.

Definition analyzeImages (dom : CheerioAPI) : list ImageIssue :=
  let imgs := select dom "img" in
  let issues :=
    fold_left
      (fun (issues : list ImageIssue) (el : Element) =>
         let issue := image_issue el in
         if alt issue || missingFormats issue || oversized issue
         then issues ++ [issue]
         else issues)
      imgs [] in
  firstn 10 issues.

(* ------------------------------------------------------------------ *)
(** ** Performance estimate: the pure arithmetic of lines 66-78 *)

Record Metrics : Type := mkMetrics {
  ttfb : Q;
  fcp : Q;
  lcp : Q
}.

(** [Math.round] on the idealised value: the nearest integer, halves going
    up. *)
Definition Math_round (x : Q) : Z := Qfloor (x + (1 # 2)).

(* ------------------------------------------------------------------ *)
(** ** The monad of the effectful stages *)

(** What a block of [runAudit] hands to the rest of the function: either it
    executed [return result], or control falls through with a value. *)
Inductive Flow (A : Type) : Type :=
| Returned
| Next (a : A).
Arguments Returned {A}.
Arguments Next {A} a.


Section Pipeline.

Context {host : Host} {rt : Runtime}.

(** The world, the log of calls made so far, and the [result] object that
    [runAudit] allocates and its stages mutate. *)
Record State : Type := mkState {
  world : World;
  trace : list Op;
  heap : AuditResult
}.

Definition M (A : Type) : Type := State -> (Exn + A) * State.

Definition ret {A : Type} (a : A) : M A := fun s => (inr a, s).

Definition throw {A : Type} (e : Exn) : M A := fun s => (inl e, s).

Definition bind {A B : Type} (m : M A) (k : A -> M B) : M B :=
  fun s =>
    match m s with
    | (inr a, s') => k a s'
    | (inl e, s') => (inl e, s')
    end.

(** [try { m } catch (err) { h err }]: the handler runs in the state the
    body had reached when it threw. *)
Definition try_catch {A : Type} (m : M A) (h : Exn -> M A) : M A :=
  fun s =>
    match m s with
    | (inr a, s') => (inr a, s')
    | (inl e, s') => h e s'
    end.

(** A call that leaves the module: the world answers, the log grows. *)
Definition perform (o : Op) : M (Ans o) :=
  fun s =>
    let (a, w) := oracle o (world s) in
    (inr a, {| world := w; trace := trace s ++ [o]; heap := heap s |}).

(** A call whose answer may be a thrown value. *)
Definition perform_throwing {A : Type} (o : Op) (cast : Ans o -> Exn + A) : M A :=
  fun s =>
    let (a, w) := oracle o (world s) in
    (cast a, {| world := w; trace := trace s ++ [o]; heap := heap s |}).

Definition Date_now : M Z := perform OpNow.

Definition Math_random : M Q := perform OpRandom.

Definition fetch (m : Method) (target : string) : M Response :=
  perform_throwing (OpFetch m target) (fun a => a).

Definition cheerio_load (html : string) : M CheerioAPI :=
  perform_throwing (OpLoad html) (fun a => a).

(** [await res.text()] *)
Definition text_of (res : Response) : M string :=
  fun s => (res_text res, s).

(** [new URL(input, base)] where a throw is not caught on the spot. *)
Definition invalid_url : Exn :=
  {| exn_message := Some "Invalid URL"; exn_string := "TypeError: Invalid URL" |}.

Definition new_URL (input : string) (base : option string) : M URL :=
  match url_parse input base with
  | Some u => ret u
  | None => throw invalid_url
  end.

(** [result.f = v] and reading [result]. *)
Definition assign (f : AuditResult -> AuditResult) : M unit :=
  fun s => (inr tt, {| world := world s; trace := trace s; heap := f (heap s) |}).

Definition read_result : M AuditResult := fun s => (inr (heap s), s).

End Pipeline.

Declare Scope audit_scope.
Delimit Scope audit_scope with audit.
Notation "x <- c1 ;; c2" := (bind c1 (fun x => c2))
  (at level 61, c1 at next level, right associativity) : audit_scope.
Notation "c1 ;; c2" := (bind c1 (fun _ => c2))
  (at level 61, right associativity) : audit_scope.
#[local] Open Scope audit_scope.

(* ------------------------------------------------------------------ *)
(** ** The stages *)

Section Stages.

Context {host : Host} {rt : Runtime}.

(** Lines 57-63. *)
Definition safeOrigin (input : string) : option string :=
  match url_parse input None with
  | Some u => Some (origin u)
  | None => None
  end.

(** Lines 66-78, with the binary64 arithmetic of the program idealised as
    exact rational arithmetic. *)
Definition estimateMetrics (responseTimeMs0 htmlSize : Z) : M Metrics :=
  let ttfb0 := Qmax (inject_Z responseTimeMs0 - 50) 0 in
  let fcpBase := (ttfb0 + Qmin (inject_Z htmlSize / 100) 500)%Q in
  r <- Math_random ;;
  let lcp0 := (fcpBase + r * 800)%Q in
  ret {| ttfb := ttfb0; fcp := fcpBase; lcp := lcp0 |}.

(** Lines 81-89.  The four expressions are given by their source text. *)
Definition mixedPatterns : list string :=
  [ "http:\/\/(?!localhost)";
    ("<img[^>]+src=" ++ dq ++ "http:\/\/(?!localhost)")%string;
    ("<script[^>]+src=" ++ dq ++ "http:\/\/(?!localhost)")%string;
    ("<link[^>]+href=" ++ dq ++ "http:\/\/(?!localhost)")%string ].

Definition hasMixedContentWarning (html : string) : bool :=
  existsb (fun p => regexp_test p "gi" html) mixedPatterns.

(** Lines 92-94. *)
Definition checkViewportMeta (html : string) : bool :=
  regexp_test ("<meta[^>]+name=[" ++ dq ++ "']?viewport[" ++ dq ++ "']?")%string "i" html.

(** *** Link health prober (lines 121-156) *)

(** The three locals of [checkBrokenLinks]; [checked] keeps the insertion
    order of the [Set]. *)
Record LinkLoop : Type := mkLinkLoop {
  links : list LinkIssue;
  checked : list string;
  count : nat
}.

Definition set_has (set : list string) (x : string) : bool :=
  existsb (String.eqb x) set.

(** One turn of the loop body for an anchor that is not skipped
    (lines 132-152). *)
Definition probe_link (baseUrl href0 : string) (st : LinkLoop) : M LinkLoop :=
  let checked' := checked st ++ [href0] in
  try_catch
    (u <- new_URL href0 (Some baseUrl) ;;
     res <- fetch HEAD (href u) ;;
     let links' :=
       if res_status res >=? 400
       then links st ++ [ {| link_url := slice0 80 href0;
                             statusCode := Some (res_status res);
                             broken := res_status res >=? 400 |} ]
       else links st in
     ret {| links := links'; checked := checked'; count := S (count st) |})
    (fun _ =>
       ret {| links := links st ++ [ {| link_url := slice0 80 href0;
                                        statusCode := None;
                                        broken := true |} ];
              checked := checked';
              count := S (count st) |}).

(** [if (!href || href.startsWith('#') || checked.has(href)) continue] *)
Definition skipped (checked0 : list string) (href0 : string) : bool :=
  negb (truthy href0) || startsWith href0 "#" || set_has checked0 href0.

(** The [for] loop of line 128, from anchor [i] on: [anchors] is what is
    left of the selection. *)
Fixpoint links_loop (anchors : list Element) (baseUrl : string) (limit : nat)
    (st : LinkLoop) : M LinkLoop :=
  match anchors with
  | [] => ret st
  | a :: rest =>
      if (count st <? limit)%nat then
        let href0 := or_empty (attr a "href") in
        if skipped (checked st) href0
        then links_loop rest baseUrl limit st
        else
          st' <- probe_link baseUrl href0 st ;;
          links_loop rest baseUrl limit st'
      else ret st
  end.

(** The declared default of the third parameter, [limit = 5]. *)
Definition default_limit : nat := 5.

Definition checkBrokenLinks_state (dom : CheerioAPI) (baseUrl : string)
    (limit : option nat) : M LinkLoop :=
  let limit0 := nullish_or limit default_limit in
  let anchors := select dom "a" in
  links_loop anchors baseUrl limit0 {| links := []; checked := []; count := 0 |}.

Definition checkBrokenLinks (dom : CheerioAPI) (baseUrl : string)
    (limit : option nat) : M (list LinkIssue) :=
  st <- checkBrokenLinks_state dom baseUrl limit ;;
  ret (links st).

(** *** Redirect consistency checker (lines 159-195) *)

Definition www_issue : RedirectIssue :=
  {| type := Www; message := "Inconsistent www redirect behavior" |}.

Definition checkRedirects (url0 : string) : M (list RedirectIssue) :=
  let issues : list RedirectIssue := [] in
  try_catch
    (parsed <- new_URL url0 None ;;
     www <- new_URL url0 None ;;
     nonWww <- new_URL url0 None ;;
     http <- new_URL url0 None ;;
     let www :=
       if negb (startsWith (hostname parsed) "www")
       then set_hostname www ("www." ++ hostname parsed)%string
       else www in
     let nonWww :=
       if startsWith (hostname parsed) "www"
       then set_hostname nonWww (strip_www_dot (hostname parsed))
       else nonWww in
     let http :=
       if protocol parsed =? "https:" then set_protocol http "http:" else http in
     if negb (hostname www =? hostname parsed)
     then
       try_catch
         (res <- fetch GET (href www) ;;
          if negb (res_url res =? href www)
             && negb (startsWith (res_url res) (origin parsed))
          then ret (issues ++ [www_issue])
          else ret issues)
         (fun _ => ret issues)
     else ret issues)
    (fun _ => ret issues).

(** *** Orchestrator (lines 211-345) *)

(** [catch (err) { result.error = String(err?.message ?? err); return result; }] *)
Definition fail_with {A : Type} (err : Exn) : M (Flow A) :=
  assign (with_error (Some (describe err))) ;;
  ret Returned.

(** Lines 246-268. *)
Definition fetch_block (targetUrl : string) : M (Flow string) :=
  try_catch
    (start <- Date_now ;;
     res <- fetch GET targetUrl ;;
     end_ <- Date_now ;;
     assign (with_status (Some (res_status res))) ;;
     assign (with_responseTimeMs (Some (end_ - start))) ;;
     assign (with_contentType (headers_get res "content-type")) ;;
     assign (with_isHttps (Some (startsWith (res_url res) "https:"))) ;;
     assign (with_hasHsts
               (Some (truthy (or_empty (headers_get res "strict-transport-security"))))) ;;
     html <- text_of res ;;
     metrics <- estimateMetrics (end_ - start) (Z.of_nat (String.length html)) ;;
     assign (with_ttfbMs (Some (Math_round (ttfb metrics)))) ;;
     assign (with_fcpMs (Some (Math_round (fcp metrics)))) ;;
     assign (with_lcpMs (Some (Math_round (lcp metrics)))) ;;
     ret (Next html))
    fail_with.

(** The callback of [links.filter] at lines 290-299. *)
Definition is_external (targetUrl : string) (origin_ : option string)
    (el : Element) : bool :=
  let href0 := or_empty (attr el "href") in
  if negb (truthy href0) then false
  else
    match url_parse href0 (Some targetUrl) with
    | Some u => negb (origin u =? nullish_or origin_ (origin u))
    | None => false
    end.

Definition count_of {A : Type} (l : list A) : option Z :=
  Some (Z.of_nat (List.length l)).

(** Lines 272-317. *)
Definition markup_block (targetUrl html : string) (origin_ : option string)
    : M (Flow unit) :=
  try_catch
    (dom <- cheerio_load html ;;
     assign (with_title (or_undefined (Some (trim (first_text (select dom "title")))))) ;;
     assign (with_metaDescription
               (or_undefined
                  (sel_attr (select dom ("meta[name=" ++ dq ++ "description" ++ dq ++ "]")%string)
                            "content"))) ;;
     assign (with_h1Count (count_of (select dom "h1"))) ;;
     let imgs := select dom "img" in
     assign (with_totalImages (count_of imgs)) ;;
     assign (with_imgWithoutAlt
               (count_of (filter (fun el => alt_missing (attr el "alt")) imgs))) ;;
     assign (with_imageIssues (Some (analyzeImages dom))) ;;
     let links0 := select dom "a" in
     assign (with_totalLinks (count_of links0)) ;;
     assign (with_externalLinks
               (count_of (filter (is_external targetUrl origin_) links0))) ;;
     assign (with_scriptsCount (count_of (select dom "script"))) ;;
     assign (with_inlineStylesCount (count_of (select dom "[style]"))) ;;
     assign (with_hasViewport (Some (checkViewportMeta html))) ;;
     r <- read_result ;;
     assign (with_responsive (hasViewport r)) ;;
     assign (with_hasMixedContent (Some (hasMixedContentWarning html))) ;;
     broken0 <- checkBrokenLinks dom targetUrl (Some 3%nat) ;;
     assign (with_brokenLinks (Some broken0)) ;;
     ret (Next tt))
    fail_with.

(** Lines 320-336. *)
Definition resources_block (targetUrl : string) (origin_ : option string)
    : M unit :=
  let origin_ : string :=
    if negb (truthy (or_empty origin_))
    then or_empty (safeOrigin targetUrl)
    else or_empty origin_ in
  try_catch
    (if truthy origin_
     then
       r <- fetch GET (origin_ ++ "/robots.txt")%string ;;
       assign (with_hasRobots (Some (ok r))) ;;
       s1 <- fetch GET (origin_ ++ "/sitemap.xml")%string ;;
       s2 <- fetch GET (origin_ ++ "/sitemap_index.xml")%string ;;
       assign (with_hasSitemap (Some (ok s1 || ok s2)))
     else ret tt)
    (fun _ => ret tt).

Definition runAudit (targetUrl : string) : M AuditResult :=
  assign (fun _ => initial_result targetUrl) ;;
  let origin_ := safeOrigin targetUrl in
  f1 <- fetch_block targetUrl ;;
  match f1 with
  | Returned => read_result
  | Next html =>
      if negb (truthy html) then read_result
      else
        f2 <- markup_block targetUrl html origin_ ;;
        match f2 with
        | Returned => read_result
        | Next _ =>
            resources_block targetUrl origin_ ;;
            redirects0 <- checkRedirects targetUrl ;;
            assign (with_redirects (Some redirects0)) ;;
            r <- read_result ;;
            assign (with_score (Some (calculateScore r))) ;;
            read_result
        end
  end.

End Stages.

(* ------------------------------------------------------------------ *)
(** ** The report's promises, in the words of the specification *)

(** The six deductions of the scorer. *)
Definition deduct_scheme (r : AuditResult) : Z :=
  if truthy_flag (isHttps r) then 0 else 15.

Definition deduct_viewport (r : AuditResult) : Z :=
  if truthy_flag (hasViewport r) then 0 else 10.

Definition deduct_alt (r : AuditResult) : Z :=
  let n := nullish_or (imgWithoutAlt r) 0 in
  if (0 <? n)%Z then Z.min 5 n else 0.

Definition deduct_links (r : AuditResult) : Z :=
  let n := length_or_0 (brokenLinks r) in
  if (0 <? n)%Z then Z.min 10 (2 * n) else 0.

Definition deduct_mixed (r : AuditResult) : Z :=
  if truthy_flag (hasMixedContent r) then 10 else 0.

Definition deduct_latency (r : AuditResult) : Z :=
  if (3000 <? nullish_or (responseTimeMs r) 0)%Z then 5 else 0.

(** The three image flags. *)
Definition flag_missing_alt (el : Element) : bool :=
  match attr el "alt" with
  | None => true
  | Some a => trim a =? ""
  end.

Definition flag_missing_modern_format (el : Element) : bool :=
  negb (includes (or_empty (attr el "src")) ".webp").

Definition flag_oversize (el : Element) : bool :=
  existsb (includes (or_empty (attr el "src"))) ["large"; "big"; "original"].

Definition qualifies (el : Element) : bool :=
  flag_missing_alt el || flag_missing_modern_format el || flag_oversize el.

(** The hrefs of the anchors, in document order, and those the link prober
    may probe: not empty, not a fragment. *)
Definition anchor_hrefs (dom : CheerioAPI) : list string :=
  map (fun a => or_empty (attr a "href")) (select dom "a").

Definition probeable (href0 : string) : bool :=
  truthy href0 && negb (startsWith href0 "#").

(** First occurrences of the entries of [l] that are not in [seen]. *)
Fixpoint distinct_from (seen l : list string) : list string :=
  match l with
  | [] => []
  | h :: t =>
      if existsb (String.eqb h) seen
      then distinct_from seen t
      else h :: distinct_from (seen ++ [h]) t
  end.

Definition is_head_request (o : Op) : Prop :=
  exists target : string, o = OpFetch HEAD target.

(** The probe of the redirect check: the target as parsed together with its
    www-prefixed variant, when the target parses, its hostname does not
    start with [www], and prefixing changed the hostname. *)
Definition www_probe {host : Host} (url0 : string) : option (URL * URL) :=
  match url_parse url0 None with
  | None => None
  | Some parsed =>
      if startsWith (hostname parsed) "www" then None
      else
        let www := set_hostname parsed ("www." ++ hostname parsed)%string in
        if hostname www =? hostname parsed then None else Some (parsed, www)
  end.

(** The body the primary fetch delivers in world [w], if it delivers one. *)
Definition primary_body {rt : Runtime} (target : string) (w : World)
    : option string :=
  let (_, w1) := oracle OpNow w in
  match fst (oracle (OpFetch GET target) w1) with
  | inr res =>
      match res_text res with
      | inr html => Some html
      | inl _ => None
      end
  | inl _ => None
  end.

(** The report after the assignments of lines 251-255, of lines 261-263 and
    of lines 275-309. *)
Definition with_transport (res : Response) (latency : Z) (r : AuditResult)
    : AuditResult :=
  with_hasHsts (Some (truthy (or_empty (headers_get res "strict-transport-security"))))
    (with_isHttps (Some (startsWith (res_url res) "https:"))
       (with_contentType (headers_get res "content-type")
          (with_responseTimeMs (Some latency)
             (with_status (Some (res_status res)) r)))).

Definition with_estimate (m : Metrics) (r : AuditResult) : AuditResult :=
  with_lcpMs (Some (Math_round (lcp m)))
    (with_fcpMs (Some (Math_round (fcp m)))
       (with_ttfbMs (Some (Math_round (ttfb m))) r)).

Definition with_markup {host : Host} (targetUrl html : string)
    (origin_ : option string) (dom : CheerioAPI) (r : AuditResult)
    : AuditResult :=
  with_hasMixedContent (Some (hasMixedContentWarning html))
    (with_responsive (Some (checkViewportMeta html))
       (with_hasViewport (Some (checkViewportMeta html))
          (with_inlineStylesCount (count_of (select dom "[style]"))
             (with_scriptsCount (count_of (select dom "script"))
                (with_externalLinks
                   (count_of (filter (is_external targetUrl origin_) (select dom "a")))
                   (with_totalLinks (count_of (select dom "a"))
                      (with_imageIssues (Some (analyzeImages dom))
                         (with_imgWithoutAlt
                            (count_of (filter (fun el => alt_missing (attr el "alt"))
                                         (select dom "img")))
                            (with_totalImages (count_of (select dom "img"))
                               (with_h1Count (count_of (select dom "h1"))
                                  (with_metaDescription
                                     (or_undefined
                                        (sel_attr
                                           (select dom
                                              ("meta[name=" ++ dq ++ "description" ++ dq ++ "]")%string)
                                           "content"))
                                     (with_title
                                        (or_undefined
                                           (Some (trim (first_text (select dom "title")))))
                                        r)))))))))))).

(** A completed audit of a page with body [html], started in state [s] and
    finished in state [s']: the markup was parsed ([s1] is the state right
    after) and its facts are in the report; the link sample ran from [s1]
    to [s2], the robots/sitemap probes from [s2] to [s3] and the redirect
    check from [s3] to [s4], and their findings are in the report; and the
    score is the scorer's value on the report as it stood before scoring. *)
Definition completed {host : Host} {rt : Runtime} (targetUrl html : string)
    (s : State) (r : AuditResult) (s' : State) : Prop :=
  exists (dom : CheerioAPI) (pre : AuditResult)
         (issues : list LinkIssue) (found : list RedirectIssue)
         (w : World) (s1 s2 s3 s4 : State),
    fst (oracle (OpLoad html) w) = inr dom
    /\ trace s1
       = trace s ++ [OpNow; OpFetch GET targetUrl; OpNow; OpRandom; OpLoad html]
    /\ h1Count r = count_of (select dom "h1")
    /\ totalImages r = count_of (select dom "img")
    /\ imageIssues r = Some (analyzeImages dom)
    /\ totalLinks r = count_of (select dom "a")
    /\ externalLinks r
       = count_of (filter (is_external targetUrl (safeOrigin targetUrl))
                     (select dom "a"))
    /\ hasViewport r = Some (checkViewportMeta html)
    /\ hasMixedContent r = Some (hasMixedContentWarning html)
    /\ checkBrokenLinks dom targetUrl (Some 3%nat) s1 = (inr issues, s2)
    /\ brokenLinks r = Some issues
    /\ (exists sent : list Op, trace s3 = trace s2 ++ sent)
    /\ checkRedirects targetUrl s3 = (inr found, s4)
    /\ redirects r = Some found
    /\ trace s' = trace s4
    /\ score pre = Some 0
    /\ r = with_score (Some (calculateScore pre)) pre.

(** The anchors that are left when those whose href fails to resolve against
    the target are taken out. *)
Definition resolving_anchors {host : Host} (targetUrl : string)
    (dom : CheerioAPI) : list Element :=
  filter
    (fun el =>
       match attr el "href" with
       | Some h =>
           match url_parse h (Some targetUrl) with
           | Some _ => true
           | None => false
           end
       | None => true
       end)
    (select dom "a").

(* ------------------------------------------------------------------ *)
(** ** Hosts and worlds to run the pipeline on *)

(** A host given by tables: the URLs its [URL] constructor accepts, each
    with its parts, and the (expression, subject) pairs on which a regular
    expression matches.  Whatever is not listed does not parse, respectively
    does not match. *)
Record Url : Type := mkUrl {
  u_protocol : string;
  u_hostname : string;
  u_pathname : string
}.

Definition u_origin (u : Url) : string :=
  (u_protocol u ++ "//" ++ u_hostname u)%string.

Definition u_href (u : Url) : string := (u_origin u ++ u_pathname u)%string.

Definition same_base (a b : option string) : bool :=
  match a, b with
  | None, None => true
  | Some x, Some y => x =? y
  | _, _ => false
  end.

Definition table_host (urls : list (string * option string * Url))
    (matches : list (string * string)) : Host :=
  {| URL := Url;
     url_parse := fun input base =>
       match find (fun e => (fst (fst e) =? input) && same_base (snd (fst e)) base) urls with
       | Some e => Some (snd e)
       | None => None
       end;
     hostname := u_hostname;
     origin := u_origin;
     protocol := u_protocol;
     href := u_href;
     set_hostname := fun u h => mkUrl (u_protocol u) h (u_pathname u);
     set_protocol := fun u p => mkUrl p (u_hostname u) (u_pathname u);
     regexp_test := fun source _ subject =>
       existsb (fun m => (fst m =? source) && (snd m =? subject)) matches |}.

(** A world given by a clock, a fixed [Math.random()] value, a table of
    servers and a table of parsed documents.  [Date.now()] reads the clock
    and advances it by [site_step]. *)
Record Site : Type := mkSite {
  site_step : Z;
  site_random : Q;
  site_serve : list (Method * string * (Exn + Response));
  site_parse : list (string * CheerioAPI)
}.

Definition fetch_failed : Exn :=
  {| exn_message := Some "fetch failed"; exn_string := "TypeError: fetch failed" |}.

Definition same_method (a b : Method) : bool :=
  match a, b with
  | GET, GET | HEAD, HEAD => true
  | _, _ => false
  end.

Definition serve (site : Site) (m : Method) (target : string) : Exn + Response :=
  match find (fun e => same_method (fst (fst e)) m && (snd (fst e) =? target))
             (site_serve site) with
  | Some e => snd e
  | None => inl fetch_failed
  end.

Definition empty_dom : CheerioAPI := {| select := fun _ => [] |}.

Definition parse (site : Site) (html : string) : Exn + CheerioAPI :=
  match find (fun e => fst e =? html) (site_parse site) with
  | Some e => inr (snd e)
  | None => inr empty_dom
  end.

Definition site_runtime (site : Site) : Runtime :=
  {| World := Z;
     oracle := fun o =>
       match o as o0 return Z -> Ans o0 * Z with
       | OpNow => fun clock => (clock, clock + site_step site)
       | OpRandom => fun clock => (site_random site, clock)
       | OpFetch m target => fun clock => (serve site m target, clock)
       | OpLoad html => fun clock => (parse site html, clock)
       end |}.

(** Responses and elements. *)
Definition respond (status0 : Z) (final : string) (body : string) : Exn + Response :=
  inr {| res_status := status0;
         res_url := final;
         headers_get := fun _ => None;
         res_text := inr body |}.

Definition element (attrs : list (string * string)) (text0 : string) : Element :=
  {| attr := fun name =>
       match find (fun e => fst e =? name) attrs with
       | Some e => Some (snd e)
       | None => None
       end;
     text := text0 |}.

Definition document (parts : list (string * list Element)) : CheerioAPI :=
  {| select := fun selector =>
       match find (fun e => fst e =? selector) parts with
       | Some e => snd e
       | None => []
       end |}.

(** *** example.com: a small page over HTTPS *)

Definition home : string := "https://example.com/".

Definition home_html : string :=
  "<title>Home</title><img src=a.jpg><a href=/about>a</a><a href=https://other.example/x>b</a><a href=http://[>c</a><a>d</a>".

Definition home_dom : CheerioAPI :=
  document
    [ ("title", [element [] "Home"]);
      ("img", [element [("src", "a.jpg")] ""]);
      ("a", [ element [("href", "/about")] "a";
              element [("href", "https://other.example/x")] "b";
              element [("href", "http://[")] "c";
              element [] "d" ]) ].

(** The URLs of the page as the [URL] class reads them; [http://[] has no
    entry, its host does not parse. *)
Definition home_urls : list (string * option string * Url) :=
  [ (home, None, mkUrl "https:" "example.com" "/");
    (EmptyString, Some home, mkUrl "https:" "example.com" "/");
    ("/about", Some home, mkUrl "https:" "example.com" "/about");
    ("https://other.example/x", Some home, mkUrl "https:" "other.example" "/x") ].

(** Of the five expressions only the first one of [mixedPatterns] matches
    the page, at [http://[]. *)
Definition home_host : Host :=
  table_host home_urls [ ("http:\/\/(?!localhost)", home_html) ].

Definition home_servers : list (Method * string * (Exn + Response)) :=
  [ (GET, home, respond 200 home home_html);
    (HEAD, "https://example.com/about", respond 200 "https://example.com/about" "");
    (HEAD, "https://other.example/x", respond 404 "https://other.example/x" "");
    (GET, "https://example.com/robots.txt",
       respond 200 "https://example.com/robots.txt" "User-agent: *");
    (GET, "https://example.com/sitemap.xml",
       respond 404 "https://example.com/sitemap.xml" "");
    (GET, "https://example.com/sitemap_index.xml",
       respond 404 "https://example.com/sitemap_index.xml" "");
    (GET, "https://www.example.com/", respond 200 home home_html) ].

Definition home_site : Site :=
  {| site_step := 1200;
     site_random := 1 # 2;
     site_serve := home_servers;
     site_parse := [ (home_html, home_dom) ] |}.

Definition home_rt : Runtime := site_runtime home_site.

(** The state an invocation starts in: a world, nothing logged yet. *)
Definition start_state (rt : Runtime) (w : @World rt) : @State rt :=
  {| world := w; trace := []; heap := initial_result EmptyString |}.

(** The examples start their clock at 1000. *)
Definition at_1000 (site : Site) : @State (site_runtime site) :=
  start_state (site_runtime site) 1000%Z.

(** *** Variations of example.com *)

(** The host is unreachable: every request fails. *)
Definition down_site : Site :=
  {| site_step := 1200; site_random := 1 # 2; site_serve := []; site_parse := [] |}.

(** The page is served with an empty body. *)
Definition blank_site : Site :=
  {| site_step := 1200;
     site_random := 1 # 2;
     site_serve := [ (GET, home, respond 200 home "") ];
     site_parse := [] |}.

(** [/robots.txt] and [/sitemap.xml] are served, the request for
    [/sitemap_index.xml] fails on the network. *)
Definition sitemap_site : Site :=
  {| site_step := 1200;
     site_random := 1 # 2;
     site_serve :=
       [ (GET, home, respond 200 home home_html);
         (HEAD, "https://example.com/about", respond 200 "https://example.com/about" "");
         (HEAD, "https://other.example/x", respond 404 "https://other.example/x" "");
         (GET, "https://example.com/robots.txt",
            respond 200 "https://example.com/robots.txt" "User-agent: *");
         (GET, "https://example.com/sitemap.xml",
            respond 200 "https://example.com/sitemap.xml" "<urlset></urlset>");
         (GET, "https://www.example.com/", respond 200 home home_html) ];
     site_parse := [ (home_html, home_dom) ] |}.

(** The [www] name answers from an unrelated origin. *)
Definition parked_site : Site :=
  {| site_step := 1200;
     site_random := 1 # 2;
     site_serve :=
       [ (GET, "https://www.example.com/",
            respond 200 "https://parked.example/" "") ];
     site_parse := [] |}.

(** A page of six distinct links, none of which answers. *)
Definition six_links_dom : CheerioAPI :=
  document
    [ ("a", [ element [("href", "/1")] "";
              element [("href", "/2")] "";
              element [("href", "/3")] "";
              element [("href", "/4")] "";
              element [("href", "/5")] "";
              element [("href", "/6")] "" ]) ].

Definition six_links_host : Host :=
  table_host
    [ (home, None, mkUrl "https:" "example.com" "/");
      ("/1", Some home, mkUrl "https:" "example.com" "/1");
      ("/2", Some home, mkUrl "https:" "example.com" "/2");
      ("/3", Some home, mkUrl "https:" "example.com" "/3");
      ("/4", Some home, mkUrl "https:" "example.com" "/4");
      ("/5", Some home, mkUrl "https:" "example.com" "/5");
      ("/6", Some home, mkUrl "https:" "example.com" "/6") ]
    [].

(** The report of a run, for runs that return one. *)
Definition report_of {rt : Runtime} (run : (Exn + AuditResult) * @State rt)
    : AuditResult :=
  match fst run with
  | inr r => r
  | inl _ => initial_result EmptyString
  end.

Definition issues_of {rt : Runtime} (run : (Exn + list LinkIssue) * @State rt)
    : list LinkIssue :=
  match fst run with
  | inr l => l
  | inl _ => []
  end.

(** The audits of example.com as served by [home_site], [blank_site] and
    [sitemap_site], and the link sample of the six-link page with the
    limit left out. *)
Definition home_run : (Exn + AuditResult) * @State home_rt :=
  runAudit (host := home_host) (rt := home_rt) home (at_1000 home_site).

Definition blank_run : (Exn + AuditResult) * @State (site_runtime blank_site) :=
  runAudit (host := home_host) home (at_1000 blank_site).

Definition sitemap_run : (Exn + AuditResult) * @State (site_runtime sitemap_site) :=
  runAudit (host := home_host) home (at_1000 sitemap_site).

Definition six_links_run : (Exn + list LinkIssue) * @State (site_runtime down_site) :=
  checkBrokenLinks (host := six_links_host) six_links_dom home None
    (at_1000 down_site).

(* ------------------------------------------------------------------ *)
(** ** Further notions used to describe the pipeline *)

(** A string made of white space only. *)
Fixpoint all_space (s : string) : bool :=
  match s with
  | EmptyString => true
  | String c s' => is_space c && all_space s'
  end.

(** The test of line 112 on the issue built for an image. *)
Definition flagged (el : Element) : bool :=
  alt (image_issue el) || missingFormats (image_issue el)
  || oversized (image_issue el).

(** Network requests in a log. *)
Definition is_fetch (o : Op) : bool :=
  match o with
  | OpFetch _ _ => true
  | _ => false
  end.

Definition is_head (o : Op) : bool :=
  match o with
  | OpFetch HEAD _ => true
  | _ => false
  end.

Definition is_get_request (o : Op) : Prop :=
  exists target : string, o = OpFetch GET target.

(** The issue recorded for an href whose probe threw (lines 147-150). *)
Definition broken_issue (href0 : string) : LinkIssue :=
  {| link_url := slice0 80 href0; statusCode := None; broken := true |}.

(** The HEAD requests that probing the hrefs [hrefs] sends, in order: one
    for each href that resolves against the base, to its resolved URL. *)
Definition requests_of {host : Host} (baseUrl : string) (hrefs : list string)
    : list Op :=
  flat_map
    (fun h =>
       match url_parse h (Some baseUrl) with
       | Some u => [OpFetch HEAD (href u)]
       | None => []
       end)
    hrefs.

(** What every recorded link issue looks like. *)
Definition link_issue_ok (i : LinkIssue) : Prop :=
  broken i = true
  /\ (String.length (link_url i) <= 80)%nat
  /\ match statusCode i with
     | Some c => 400 <= c
     | None => True
     end.

(** What the robots/sitemap block may have done to a report [h]: nothing,
    set [hasRobots], or set both flags. *)
Inductive robots_update (h : AuditResult) : AuditResult -> Prop :=
| RobotsUntouched : robots_update h h
| RobotsOnly (b : bool) : robots_update h (with_hasRobots (Some b) h)
| RobotsAndSitemap (b c : bool) :
    robots_update h (with_hasSitemap (Some c) (with_hasRobots (Some b) h)).

(** The five ways a run of [runAudit] on [targetUrl] from state [s] can end,
    with the report [r] it returns and the state [s'] it ends in. *)
Inductive Outcome {host : Host} {rt : Runtime} (targetUrl : string)
    (s : State) (r : AuditResult) (s' : State) : Prop :=
| FetchFailed (e : Exn) :
    r = with_error (Some (describe e)) (initial_result targetUrl) ->
    trace s' = trace s ++ [OpNow; OpFetch GET targetUrl] ->
    Outcome targetUrl s r s'
| BodyFailed (res : Response) (latency : Z) (e : Exn) :
    res_text res = inl e ->
    r = with_error (Some (describe e))
          (with_transport res latency (initial_result targetUrl)) ->
    trace s' = trace s ++ [OpNow; OpFetch GET targetUrl; OpNow] ->
    Outcome targetUrl s r s'
| EmptyBody (res : Response) (latency : Z) (m : Metrics) :
    res_text res = inr EmptyString ->
    r = with_estimate m (with_transport res latency (initial_result targetUrl)) ->
    trace s' = trace s ++ [OpNow; OpFetch GET targetUrl; OpNow; OpRandom] ->
    Outcome targetUrl s r s'
| ParseFailed (res : Response) (latency : Z) (m : Metrics) (html : string)
    (e : Exn) :
    res_text res = inr html ->
    html <> EmptyString ->
    r = with_error (Some (describe e))
          (with_estimate m
             (with_transport res latency (initial_result targetUrl))) ->
    trace s' = trace s ++ [OpNow; OpFetch GET targetUrl; OpNow; OpRandom;
                           OpLoad html] ->
    Outcome targetUrl s r s'
| Completed (res : Response) (latency : Z) (m : Metrics) (html : string)
    (dom : CheerioAPI) (issues : list LinkIssue) (found : list RedirectIssue)
    (h3 : AuditResult) (heads gets wwws : list Op) :
    res_text res = inr html ->
    html <> EmptyString ->
    (List.length issues <= 3)%nat ->
    robots_update
      (with_brokenLinks (Some issues)
         (with_markup targetUrl html (safeOrigin targetUrl) dom
            (with_estimate m
               (with_transport res latency (initial_result targetUrl)))))
      h3 ->
    (found = [] \/ found = [www_issue]) ->
    r = with_score (Some (calculateScore (with_redirects (Some found) h3)))
          (with_redirects (Some found) h3) ->
    trace s' = trace s ++ [OpNow; OpFetch GET targetUrl; OpNow; OpRandom;
                           OpLoad html] ++ heads ++ gets ++ wwws ->
    (List.length heads <= 3)%nat ->
    Forall is_head_request heads ->
    (List.length gets <= 3)%nat ->
    Forall is_get_request gets ->
    (List.length wwws <= 1)%nat ->
    Forall is_get_request wwws ->
    Outcome targetUrl s r s'.

(* ------------------------------------------------------------------ *)
(** ** The callers of [runAudit]: API route and score ring *)

(** A parsed JSON value; an object is given by its own properties, one
    entry per key. *)
#[local] Unset Elimination Schemes.
Inductive Json : Type :=
| JNull
| JBool (b : bool)
| JNum (q : Q)
| JStr (s : string)
| JArr (items : list Json)
| JObj (fields : list (string * Json)).
#[local] Set Elimination Schemes.

(** [body?.key]: defined for an object that has the key. *)
Definition property (body : Json) (key : string) : option Json :=
  match body with
  | JObj fields =>
      match find (fun e => fst e =? key) fields with
      | Some e => Some (snd e)
      | None => None
      end
  | _ => None
  end.

(** [!v] for a value or [undefined]. *)
Definition falsy (v : option Json) : bool :=
  match v with
  | None => true
  | Some JNull => true
  | Some (JBool b) => negb b
  | Some (JNum q) => Qeq_bool q 0
  | Some (JStr s) => negb (truthy s)
  | Some (JArr _) => false
  | Some (JObj _) => false
  end.

(** [typeof v === 'string'] *)
Definition is_string (v : option Json) : bool :=
  match v with
  | Some (JStr _) => true
  | _ => false
  end.

(** The string a value is, once [typeof v === 'string'] has been checked. *)
Definition string_value (v : option Json) : string :=
  match v with
  | Some (JStr s) => s
  | _ => EmptyString
  end.

(** What the route answers: a status and a JSON body, which is either
    [{ error: message }] or a report. *)
Inductive RouteBody : Type :=
| ErrorBody (message0 : string)
| ReportBody (report : AuditResult).

Record RouteResponse : Type := mkRouteResponse {
  route_body : RouteBody;
  route_status : Z
}.

(** [NextResponse.json(body, { status })] *)
Definition NextResponse_json (body : RouteBody) (status0 : Z) : RouteResponse :=
  {| route_body := body; route_status := status0 |}.

Section Route.

Context {host : Host} {rt : Runtime}.

(** The [POST] handler of the audit route; [request_json] is the outcome of
    [await request.json()]. *)
Definition POST (request_json : Exn + Json) : M RouteResponse :=
  try_catch
    (body <- (fun st : State => (request_json, st)) ;;
     let url0 := property body "url" in
     if falsy url0 || negb (is_string url0)
     then ret (NextResponse_json
                 (ErrorBody "Missing or invalid `url` in request body") 400)
     else
       let u := string_value url0 in
       rejected <- try_catch
                     (new_URL u None ;; ret None)
                     (fun _ => ret (Some (NextResponse_json
                                            (ErrorBody "Invalid URL") 400))) ;;
       match rejected with
       | Some response => ret response
       | None =>
           result0 <- runAudit u ;;
           ret (NextResponse_json (ReportBody result0) 200)
       end)
    (fun err => ret (NextResponse_json (ErrorBody (describe err)) 500)).

End Route.

(** A request the route accepts: its body is an object whose [url] is a
    non-empty string that the [URL] class parses. *)
Definition accepted_url {host : Host} (request_json : Exn + Json)
    : option string :=
  match request_json with
  | inr body =>
      match property body "url" with
      | Some (JStr u) =>
          if truthy u
          then match url_parse u None with
               | Some _ => Some u
               | None => None
               end
          else None
      | _ => None
      end
  | inl _ => None
  end.

(** The colour of the score ring, [getColor] of [ProgressRing]. *)
Definition getColor (score0 : Z) : string :=
  if score0 >=? 80 then "#10b981"
  else if score0 >=? 60 then "#f59e0b"
  else if score0 >=? 40 then "#f97316"
  else "#ef4444".

(** *** Further variations of example.com *)

(** The page answers, but reading its body fails. *)
Definition body_aborted : Exn :=
  {| exn_message := Some "terminated"; exn_string := "TypeError: terminated" |}.

Definition aborted_response : Response :=
  {| res_status := 200;
     res_url := home;
     headers_get := fun _ => None;
     res_text := inl body_aborted |}.

Definition aborted_site : Site :=
  {| site_step := 1200;
     site_random := 1 # 2;
     site_serve := [ (GET, home, inr aborted_response) ];
     site_parse := [] |}.

(** The answers of [blank_site] and [home_site] to the primary request. *)
Definition blank_response : Response :=
  {| res_status := 200;
     res_url := home;
     headers_get := fun _ => None;
     res_text := inr EmptyString |}.

Definition home_response : Response :=
  {| res_status := 200;
     res_url := home;
     headers_get := fun _ => None;
     res_text := inr home_html |}.

(** A world like [home_site] whose parser throws on every document. *)
Definition parse_error : Exn :=
  {| exn_message := Some "parse error"; exn_string := "Error: parse error" |}.

Definition unparsable_rt : Runtime :=
  {| World := Z;
     oracle := fun o =>
       match o as o0 return Z -> Ans o0 * Z with
       | OpNow => fun clock => (clock, clock + 1200)
       | OpRandom => fun clock => (1 # 2, clock)
       | OpFetch m target => fun clock => (serve home_site m target, clock)
       | OpLoad html => fun clock => (inl parse_error, clock)
       end |}.

(** A host whose [URL] class accepts nothing. *)
Definition no_url_host : Host := table_host [] [].

(** Requests as the route receives them. *)
Definition home_request : Exn + Json := inr (JObj [("url", JStr home)]).

Definition blank_request : Exn + Json := inr (JObj [("url", JStr "   ")]).

(* ------------------------------------------------------------------ *)
(** * Properties *)

(** ** Strings *)

Lemma trim_empty : trim "" = "".
Proof. reflexivity. Qed.

Example trim_both_ends : trim "  alt text  " = "alt text".
Proof. reflexivity. Qed.

Example trim_blank : trim "   " = "".
Proof. reflexivity. Qed.

Lemma prefix_app (p s : string) :
  String.prefix p s = true <-> exists post : string, s = (p ++ post)%string.
Proof.
  revert s. induction p as [|c p IH]; intros s.
  - split; [intros _; now exists s|now destruct s].
  - destruct s as [|d s]; simpl;
      [split; [discriminate|intros (post & H); discriminate]|].
    destruct (Ascii.ascii_dec c d) as [->|Hne].
    + rewrite IH. split; intros (post & H); exists post; congruence.
    + split; [discriminate|]. intros (post & H). congruence.
Qed.

(** [includes] is the substring test. *)
Lemma includes_substring (s sub : string) :
  includes s sub = true
  <-> exists pre post : string, s = (pre ++ sub ++ post)%string.
Proof.
  induction s as [|c s IH]; cbn [includes]; rewrite orb_true_iff, prefix_app.
  - split.
    + intros [(post & H)|H]; [|discriminate]. now exists "", post.
    + intros (pre & post & H). left. exists post.
      destruct pre; [exact H|discriminate].
  - rewrite IH. split.
    + intros [(post & H)|(pre & post & H)].
      * now exists "", post.
      * exists (String c pre), post. simpl. now rewrite H.
    + intros (pre & post & H). destruct pre as [|d pre].
      * left. now exists post.
      * right. exists pre, post. simpl in H. congruence.
Qed.

(** [slice(0, n)] keeps at most [n] code units. *)
Lemma slice0_length (n : nat) (s : string) :
  (String.length (slice0 n s) <= n)%nat.
Proof.
  unfold slice0. revert s. induction n as [|n IH]; intros [|c s]; simpl; try lia.
  specialize (IH s). lia.
Qed.

Lemma alt_missing_blank (a : option string) :
  alt_missing a = match a with None => true | Some s => trim s =? "" end.
Proof.
  destruct a as [s|]; simpl; [|reflexivity].
  unfold truthy. destruct (String.eqb_spec s "") as [->|_]; reflexivity.
Qed.

(** ** Scorer *)

Lemma calculateScore_sum (r : AuditResult) :
  calculateScore r =
    Z.max 0 (100 - deduct_scheme r - deduct_viewport r - deduct_alt r
                 - deduct_links r - deduct_mixed r - deduct_latency r).
Proof.
  unfold calculateScore, deduct_scheme, deduct_viewport, deduct_alt,
    deduct_links, deduct_mixed, deduct_latency.
  set (a := nullish_or (imgWithoutAlt r) 0).
  set (b := length_or_0 (brokenLinks r)).
  set (t := nullish_or (responseTimeMs r) 0).
  rewrite !Z.gtb_ltb.
  destruct (truthy_flag (isHttps r)), (truthy_flag (hasViewport r)),
    (truthy_flag (hasMixedContent r)); simpl negb; cbv iota;
    destruct (Z.ltb_spec 0 a), (Z.ltb_spec 0 b), (Z.ltb_spec 3000 t);
    lia.
Qed.

(** Each deduction is bounded by its weight. *)
Lemma deductions_bounded (r : AuditResult) :
  0 <= deduct_scheme r <= 15
  /\ 0 <= deduct_viewport r <= 10
  /\ 0 <= deduct_alt r <= 5
  /\ 0 <= deduct_links r <= 10
  /\ 0 <= deduct_mixed r <= 10
  /\ 0 <= deduct_latency r <= 5.
Proof.
  unfold deduct_scheme, deduct_viewport, deduct_alt,
    deduct_links, deduct_mixed, deduct_latency.
  destruct (truthy_flag (isHttps r)), (truthy_flag (hasViewport r)),
    (truthy_flag (hasMixedContent r));
    destruct (Z.ltb_spec 0 (nullish_or (imgWithoutAlt r) 0)),
      (Z.ltb_spec 0 (length_or_0 (brokenLinks r))),
      (Z.ltb_spec 3000 (nullish_or (responseTimeMs r) 0));
    lia.
Qed.

(** C2: the score is 100 minus the six additive deductions, clamped below at
    0, and therefore lies between 0 and 100. *)
Theorem calculateScore_deductions (r : AuditResult) :
  calculateScore r =
    Z.max 0 (100 - deduct_scheme r - deduct_viewport r - deduct_alt r
                 - deduct_links r - deduct_mixed r - deduct_latency r)
  /\ 0 <= calculateScore r <= 100.
Proof.
  split; [apply calculateScore_sum|].
  rewrite calculateScore_sum. pose proof (deductions_bounded r). lia.
Qed.

(** The deductions never add up to more than 55, so the clamp at 0 is never
    the value returned. *)
Lemma calculateScore_at_least_45 (r : AuditResult) : 45 <= calculateScore r.
Proof.
  rewrite calculateScore_sum. pose proof (deductions_bounded r). lia.
Qed.

(** ** Image inspector *)

Lemma push_if_fold {A B : Type} (p : A -> bool) (f : A -> B) (l : list A) :
  forall acc : list B,
    fold_left (fun acc el => if p el then acc ++ [f el] else acc) l acc
    = acc ++ map f (filter p l).
Proof.
  induction l as [|x l IH]; intros acc; simpl.
  - now rewrite app_nil_r.
  - rewrite IH. destruct (p x); simpl; [|reflexivity].
    now rewrite <- app_assoc.
Qed.

Lemma image_issue_flags (el : Element) :
  alt (image_issue el) = flag_missing_alt el
  /\ missingFormats (image_issue el) = flag_missing_modern_format el
  /\ oversized (image_issue el) = flag_oversize el.
Proof.
  unfold image_issue, flag_missing_alt, flag_missing_modern_format,
    flag_oversize; simpl.
  split; [apply alt_missing_blank|].
  split; [reflexivity|].
  now rewrite orb_false_r, orb_assoc.
Qed.

(** C6: the image-issue list is made of the images with at least one flag
    set, in document order, cut after the tenth; it is never longer than 10
    nor longer than the image inventory. *)
Theorem analyzeImages_first_ten_flagged (dom : CheerioAPI) :
  analyzeImages dom
    = firstn 10 (map image_issue (filter qualifies (select dom "img")))
  /\ (forall el : Element,
        alt (image_issue el) = flag_missing_alt el
        /\ missingFormats (image_issue el) = flag_missing_modern_format el
        /\ oversized (image_issue el) = flag_oversize el)
  /\ (List.length (analyzeImages dom) <= 10)%nat
  /\ (List.length (analyzeImages dom) <= List.length (select dom "img"))%nat.
Proof.
  assert (E : analyzeImages dom
    = firstn 10 (map image_issue (filter qualifies (select dom "img")))).
  { unfold analyzeImages.
    rewrite (push_if_fold
               (fun el => alt (image_issue el) || missingFormats (image_issue el)
                          || oversized (image_issue el)) image_issue).
    simpl app. f_equal. f_equal. apply filter_ext. intros el.
    destruct (image_issue_flags el) as (Ha & Hm & Ho).
    change (alt (image_issue el) || missingFormats (image_issue el)
            || oversized (image_issue el) = qualifies el).
    rewrite Ha, Hm, Ho. reflexivity. }
  split; [exact E|]. split; [exact image_issue_flags|].
  rewrite E. split.
  - apply firstn_le_length.
  - rewrite length_firstn, length_map.
    pose proof (filter_length_le qualifies (select dom "img")). lia.
Qed.

(** ** Link health prober *)

Section LinkProber.

Context {host : Host} {rt : Runtime}.

(** One probe: whatever the outcome, the href is remembered and the count
    goes up by one; at most one issue is recorded and at most one HEAD
    request is sent. *)
Lemma probe_link_run (baseUrl href0 : string) (st : LinkLoop) (s : State) :
  exists (st' : LinkLoop) (s' : State) (sent : list Op),
    probe_link baseUrl href0 st s = (inr st', s')
    /\ checked st' = checked st ++ [href0]
    /\ count st' = S (count st)
    /\ (List.length (links st') <= S (List.length (links st)))%nat
    /\ trace s' = trace s ++ sent
    /\ (List.length sent <= 1)%nat
    /\ Forall is_head_request sent
    /\ heap s' = heap s.
Proof.
  unfold probe_link, try_catch, bind, new_URL.
  destruct (url_parse href0 (Some baseUrl)) as [u|]; simpl.
  - unfold fetch, perform_throwing.
    destruct (oracle (OpFetch HEAD (href u)) (world s)) as [[e|res] w]; simpl.
    + eexists _, _, [OpFetch HEAD (href u)]. split; [reflexivity|]. simpl.
      rewrite length_app. simpl.
      repeat split; try lia. repeat constructor. now exists (href u).
    + eexists _, _, [OpFetch HEAD (href u)]. split; [reflexivity|]. simpl.
      repeat split; try lia.
      * destruct (res_status res >=? 400); [rewrite length_app; simpl|]; lia.
      * repeat constructor. now exists (href u).
  - eexists _, _, []. split; [reflexivity|]. simpl.
    rewrite length_app, app_nil_r. simpl. repeat split; try lia. constructor.
Qed.

Lemma skipped_probeable (seen : list string) (h : string) :
  skipped seen h = negb (probeable h) || existsb (String.eqb h) seen.
Proof.
  unfold skipped, probeable, set_has.
  destruct (truthy h), (startsWith h "#"); reflexivity.
Qed.

(** The loop from any anchor on: the hrefs probed are the first
    [limit - count] new probeable ones. *)
Lemma links_loop_run (baseUrl : string) (limit : nat) (anchors : list Element) :
  forall (st : LinkLoop) (s : State),
  exists (st' : LinkLoop) (s' : State) (sent : list Op),
    links_loop anchors baseUrl limit st s = (inr st', s')
    /\ checked st'
       = checked st
         ++ firstn (limit - count st)
              (distinct_from (checked st)
                 (filter probeable (map (fun a => or_empty (attr a "href")) anchors)))
    /\ (count st' + List.length (checked st)
        = count st + List.length (checked st'))%nat
    /\ (List.length (links st') + count st
        <= List.length (links st) + count st')%nat
    /\ (count st <= limit -> count st' <= limit)%nat
    /\ trace s' = trace s ++ sent
    /\ (List.length sent + count st <= count st')%nat
    /\ Forall is_head_request sent
    /\ heap s' = heap s.
Proof.
  induction anchors as [|a rest IH]; intros st s.
  - exists st, s, []. simpl. unfold ret.
    rewrite firstn_nil, !app_nil_r. repeat split; try lia. constructor.
  - simpl links_loop.
    destruct (Nat.ltb_spec (count st) limit) as [Hlt|Hge].
    + set (h := or_empty (attr a "href")).
      simpl map. simpl filter. fold h.
      rewrite skipped_probeable.
      destruct (probeable h) eqn:Hp; cbn [negb orb].
      * simpl distinct_from.
        destruct (existsb (String.eqb h) (checked st)) eqn:Hin; cbn iota.
        -- apply IH.
        -- unfold bind.
           destruct (probe_link_run baseUrl h st s)
             as (st1 & s1 & sent1 & E1 & Hc1 & Hn1 & Hl1 & Ht1 & Hs1 & Hh1 & Hp1).
           rewrite E1.
           destruct (IH st1 s1)
             as (st' & s' & sent & E & Hc & Hn & Hl & Hb & Ht & Hs & Hh & Hp').
           rewrite E.
           exists st', s', (sent1 ++ sent). split; [reflexivity|].
           rewrite Hc, Hc1, Hn1 in *.
           replace (limit - count st)%nat with (S (limit - S (count st))) by lia.
           simpl firstn. rewrite <- app_assoc. simpl app.
           rewrite !length_app in *. simpl List.length in *.
           repeat split; try lia.
           ++ rewrite Ht, Ht1. now rewrite app_assoc.
           ++ apply Forall_app. split; assumption.
           ++ congruence.
      * apply IH.
    + exists st, s, []. unfold ret.
      replace (limit - count st)%nat with 0%nat by lia.
      simpl firstn. rewrite !app_nil_r. repeat split; try lia; constructor.
Qed.

(** Amended C4: the prober never throws; it returns at most [limit] issues,
    where an omitted limit means 5; the hrefs probed are the first [limit]
    distinct non-empty, non-fragment hrefs in document order, every one of
    them counted once whether or not it produced an issue; at most one HEAD
    request is sent per counted link. *)
Theorem checkBrokenLinks_sample (dom : CheerioAPI) (baseUrl : string)
    (limit : option nat) (s : State) :
  let n := match limit with Some l => l | None => 5%nat end in
  exists (st : LinkLoop) (s' : State) (sent : list Op),
    checkBrokenLinks_state dom baseUrl limit s = (inr st, s')
    /\ checkBrokenLinks dom baseUrl limit s = (inr (links st), s')
    /\ (List.length (links st) <= count st <= n)%nat
    /\ count st = List.length (checked st)
    /\ checked st
       = firstn n (distinct_from [] (filter probeable (anchor_hrefs dom)))
    /\ trace s' = trace s ++ sent
    /\ (List.length sent <= count st)%nat
    /\ Forall is_head_request sent
    /\ heap s' = heap s.
Proof.
  intros n.
  unfold checkBrokenLinks, checkBrokenLinks_state, bind.
  destruct (links_loop_run baseUrl (nullish_or limit default_limit)
              (select dom "a") {| links := []; checked := []; count := 0 |} s)
    as (st & s' & sent & -> & Hc & Hn & Hl & Hb & Ht & Hs & Hh & Hp).
  simpl in Hc, Hn, Hl, Hb, Hs.
  exists st, s', sent.
  assert (En : nullish_or limit default_limit = n) by (now destruct limit).
  rewrite En, Nat.sub_0_r in *.
  repeat split; try assumption; try lia.
Qed.

End LinkProber.

(** ** Redirect consistency checker *)

Section Redirects.

Context {host : Host} {rt : Runtime}.

(** C8: the checker never throws and leaves the report alone.  Without a
    www probe it sends nothing and finds nothing.  With one, the only
    request sent is a GET of the www-prefixed URL, and the www issue is
    recorded exactly when that request is answered with a final URL that is
    neither the www URL nor starts with the origin of the target; a request
    that fails yields no issue.  A probe exists only for a hostname without
    the www prefix; the non-www and http variants are never requested. *)
Theorem checkRedirects_www_only (url0 : string) (s : State) :
  match www_probe url0 with
  | None => checkRedirects url0 s = (inr [], s)
  | Some (parsed, www) =>
      startsWith (hostname parsed) "www" = false
      /\ exists issues : list RedirectIssue,
           checkRedirects url0 s
             = (inr issues,
                {| world := snd (oracle (OpFetch GET (href www)) (world s));
                   trace := trace s ++ [OpFetch GET (href www)];
                   heap := heap s |})
           /\ (issues = [] \/ issues = [www_issue])
           /\ (issues = [www_issue] <->
               exists res : Response,
                 fst (oracle (OpFetch GET (href www)) (world s)) = inr res
                 /\ res_url res <> href www
                 /\ startsWith (res_url res) (origin parsed) = false)
  end.
Proof.
  unfold www_probe, checkRedirects, try_catch, bind, new_URL.
  destruct (url_parse url0 None) as [parsed|]; [|reflexivity].
  unfold ret. cbv beta iota zeta.
  destruct (startsWith (hostname parsed) "www") eqn:Hw; cbn [negb].
  - now rewrite String.eqb_refl.
  - destruct (hostname (set_hostname parsed ("www." ++ hostname parsed))
              =? hostname parsed)%string eqn:Hh; cbn [negb]; [reflexivity|].
    split; [exact Hw|].
    set (www := set_hostname parsed ("www." ++ hostname parsed)%string).
    unfold fetch, perform_throwing.
    destruct (oracle (OpFetch GET (href www)) (world s)) as [[e|res] w]; simpl.
    + exists []. split; [reflexivity|]. split; [now left|].
      split; [discriminate|]. intros (res & H & _). discriminate.
    + destruct (String.eqb_spec (res_url res) (href www)) as [He|He];
        cbn [negb andb].
      * exists []. split; [reflexivity|]. split; [now left|].
        split; [discriminate|]. intros (res' & H & Hne & _).
        injection H as <-. contradiction.
      * destruct (startsWith (res_url res) (origin parsed)) eqn:Hs; cbn [negb].
        -- exists []. split; [reflexivity|]. split; [now left|].
           split; [discriminate|]. intros (res' & H & _ & Hs').
           injection H as <-. congruence.
        -- exists [www_issue]. split; [reflexivity|]. split; [now right|].
           split; [|reflexivity]. intros _. exists res. auto.
Qed.

End Redirects.

(** ** Orchestrator *)

Section Orchestrator.

Context {host : Host} {rt : Runtime}.

Lemma checkBrokenLinks_run (dom : CheerioAPI) (baseUrl : string)
    (limit : option nat) (s : State) :
  exists (issues : list LinkIssue) (s' : State) (sent : list Op),
    checkBrokenLinks dom baseUrl limit s = (inr issues, s')
    /\ (List.length issues <= nullish_or limit default_limit)%nat
    /\ trace s' = trace s ++ sent
    /\ heap s' = heap s.
Proof.
  unfold checkBrokenLinks, checkBrokenLinks_state, bind.
  destruct (links_loop_run baseUrl (nullish_or limit default_limit)
              (select dom "a") {| links := []; checked := []; count := 0 |} s)
    as (st & s' & sent & -> & Hc & Hn & Hl & Hb & Ht & Hs & Hh & Hp).
  simpl in Hl, Hb. exists (links st), s', sent.
  repeat split; try assumption. lia.
Qed.

(** The first [try] block, case by case on what the world answers. *)
Lemma fetch_block_run (targetUrl : string) (s : State) :
  let (t0, w1) := oracle OpNow (world s) in
  let sent := [OpNow; OpFetch GET targetUrl] in
  match oracle (OpFetch GET targetUrl) w1 with
  | (inl e, w2) =>
      fetch_block targetUrl s
      = (inr Returned,
         {| world := w2; trace := trace s ++ sent;
            heap := with_error (Some (describe e)) (heap s) |})
  | (inr res, w2) =>
      let (t1, w3) := oracle OpNow w2 in
      let r1 := with_transport res (t1 - t0) (heap s) in
      match res_text res with
      | inl e =>
          fetch_block targetUrl s
          = (inr Returned,
             {| world := w3; trace := trace s ++ sent ++ [OpNow];
                heap := with_error (Some (describe e)) r1 |})
      | inr html =>
          let (rnd, w4) := oracle OpRandom w3 in
          exists m : Metrics,
            estimateMetrics (t1 - t0) (Z.of_nat (String.length html))
              {| world := w3; trace := trace s ++ sent ++ [OpNow]; heap := r1 |}
            = (inr m, {| world := w4; trace := trace s ++ sent ++ [OpNow; OpRandom];
                         heap := r1 |})
            /\ fetch_block targetUrl s
               = (inr (Next html),
                  {| world := w4; trace := trace s ++ sent ++ [OpNow; OpRandom];
                     heap := with_estimate m r1 |})
      end
  end.
Proof.
  unfold fetch_block, try_catch, bind, Date_now, fetch, perform,
    perform_throwing, fail_with, assign, text_of, estimateMetrics,
    Math_random, ret, bind, perform.
  destruct (oracle OpNow (world s)) as [t0 w1]. cbn [world trace heap].
  destruct (oracle (OpFetch GET targetUrl) w1) as [[e|res] w2];
    cbn [world trace heap].
  - now rewrite <- app_assoc.
  - destruct (oracle OpNow w2) as [t1 w3]. cbn [world trace heap].
    destruct (res_text res) as [e|html]; cbn [world trace heap].
    + now rewrite <- !app_assoc.
    + destruct (oracle OpRandom w3) as [rnd w4]. cbn [world trace heap].
      eexists. rewrite <- !app_assoc. split; reflexivity.
Qed.

End Orchestrator.

Section Blocks.

Context {host : Host} {rt : Runtime}.

(** Running the monad one statement at a time. *)
Lemma bind_assign {A : Type} (f : AuditResult -> AuditResult) (k : unit -> M A)
    (w : World) (t : list Op) (h : AuditResult) :
  bind (assign f) k {| world := w; trace := t; heap := h |}
  = k tt {| world := w; trace := t; heap := f h |}.
Proof. reflexivity. Qed.

Lemma bind_read {A : Type} (k : AuditResult -> M A)
    (w : World) (t : list Op) (h : AuditResult) :
  bind read_result k {| world := w; trace := t; heap := h |}
  = k h {| world := w; trace := t; heap := h |}.
Proof. reflexivity. Qed.

Lemma bind_cheerio_load {A : Type} (html : string) (k : CheerioAPI -> M A)
    (w : World) (t : list Op) (h : AuditResult) :
  bind (cheerio_load html) k {| world := w; trace := t; heap := h |}
  = match oracle (OpLoad html) w with
    | (inl e, w1) =>
        (inl e, {| world := w1; trace := t ++ [OpLoad html]; heap := h |})
    | (inr dom, w1) =>
        k dom {| world := w1; trace := t ++ [OpLoad html]; heap := h |}
    end.
Proof.
  unfold bind, cheerio_load, perform_throwing. cbn [world trace heap].
  destruct (oracle (OpLoad html) w) as [[e|dom] w1]; reflexivity.
Qed.

(** The second [try] block: a parse failure is reported, otherwise the
    markup facts are stored and up to three links are probed. *)
Lemma markup_block_run (targetUrl html : string) (origin_ : option string)
    (s : State) :
  match oracle (OpLoad html) (world s) with
  | (inl e, w1) =>
      markup_block targetUrl html origin_ s
      = (inr Returned,
         {| world := w1; trace := trace s ++ [OpLoad html];
            heap := with_error (Some (describe e)) (heap s) |})
  | (inr dom, w1) =>
      let r1 := with_markup targetUrl html origin_ dom (heap s) in
      let s1 := {| world := w1; trace := trace s ++ [OpLoad html]; heap := r1 |} in
      exists (issues : list LinkIssue) (s2 : State) (sent : list Op),
        checkBrokenLinks dom targetUrl (Some 3%nat) s1 = (inr issues, s2)
        /\ (List.length issues <= 3)%nat
        /\ trace s2 = trace s1 ++ sent
        /\ markup_block targetUrl html origin_ s
           = (inr (Next tt),
              {| world := world s2; trace := trace s2;
                 heap := with_brokenLinks (Some issues) r1 |})
  end.
Proof.
  destruct s as [w t h]. cbn [world trace heap].
  unfold markup_block, try_catch.
  rewrite bind_cheerio_load.
  destruct (oracle (OpLoad html) w) as [[e|dom] w1]; [reflexivity|].
  cbv beta zeta.
  repeat (rewrite bind_assign; cbv beta).
  rewrite bind_read. cbv beta.
  repeat (rewrite bind_assign; cbv beta).
  match goal with
  | |- context [bind (checkBrokenLinks ?d ?u ?l) ?k ?st] =>
      destruct (checkBrokenLinks_run d u l st)
        as (issues & s2 & sent & E & Hlen & Htr & Hheap);
      unfold bind at 1; rewrite E
  end.
  exists issues, s2, sent.
  split; [exact E|]. split; [exact Hlen|]. split; [exact Htr|].
  destruct s2 as [w2 t2 h2]. cbn [world trace heap] in *. subst h2.
  rewrite bind_assign. reflexivity.
Qed.

(** The third [try] block never throws; it touches [hasRobots] and
    [hasSitemap] only, and it sends GET requests only. *)
Lemma resources_block_run (targetUrl : string) (origin_ : option string)
    (s : State) :
  exists (s' : State) (sent : list Op),
    resources_block targetUrl origin_ s = (inr tt, s')
    /\ trace s' = trace s ++ sent
    /\ (heap s' = heap s
        \/ (exists b : bool, heap s' = with_hasRobots (Some b) (heap s))
        \/ (exists b c : bool,
              heap s' = with_hasSitemap (Some c) (with_hasRobots (Some b) (heap s)))).
Proof.
  unfold resources_block.
  set (o := if negb (truthy (or_empty origin_))
            then or_empty (safeOrigin targetUrl) else or_empty origin_).
  unfold try_catch, bind, fetch, perform_throwing, assign, ret.
  destruct (truthy o).
  - destruct (oracle (OpFetch GET (o ++ "/robots.txt")) (world s))
      as [[e|r] w1]; cbn [world trace heap].
    + eexists _, _. split; [reflexivity|]. cbn [world trace heap].
      split; [reflexivity|]. now left.
    + destruct (oracle (OpFetch GET (o ++ "/sitemap.xml")) w1)
        as [[e|s1] w2]; cbn [world trace heap].
      * eexists _, _. split; [reflexivity|]. cbn [world trace heap].
        split; [now rewrite <- app_assoc|]. right. left. now exists (ok r).
      * destruct (oracle (OpFetch GET (o ++ "/sitemap_index.xml")) w2)
          as [[e|s2] w3]; cbn [world trace heap].
        -- eexists _, _. split; [reflexivity|]. cbn [world trace heap].
           split; [now rewrite <- !app_assoc|]. right. left. now exists (ok r).
        -- eexists _, _. split; [reflexivity|]. cbn [world trace heap].
           split; [now rewrite <- !app_assoc|]. right. right.
           now exists (ok r), (ok s1 || ok s2).
  - exists s, []. split; [reflexivity|]. rewrite app_nil_r. split; [reflexivity|].
    now left.
Qed.

(** What the block makes of the sitemap probes: starting from the default
    [false], the flag ends up [true] exactly when all three requests are
    answered and one of the two sitemap answers is a success. *)
Lemma resources_block_sitemap (targetUrl o : string) (s : State) :
  truthy o = true ->
  hasSitemap (heap s) = Some false ->
  exists s' : State,
    resources_block targetUrl (Some o) s = (inr tt, s')
    /\ (hasSitemap (heap s') = Some true
        <-> exists (r s1 s2 : Response) (w1 w2 w3 : World),
              oracle (OpFetch GET (o ++ "/robots.txt")) (world s) = (inr r, w1)
              /\ oracle (OpFetch GET (o ++ "/sitemap.xml")) w1 = (inr s1, w2)
              /\ oracle (OpFetch GET (o ++ "/sitemap_index.xml")) w2 = (inr s2, w3)
              /\ ok s1 || ok s2 = true).
Proof.
  intros Ho Hdef. unfold resources_block. cbn [or_empty]. rewrite Ho.
  cbn [negb]. cbv beta iota zeta. rewrite Ho.
  unfold try_catch, bind, fetch, perform_throwing, assign, ret.
  destruct (oracle (OpFetch GET (o ++ "/robots.txt")) (world s))
    as [[e|r] w1]; cbn [world trace heap].
  { eexists. split; [reflexivity|]. cbn [heap]. rewrite Hdef.
    split; [discriminate|]. intros (r & s1 & s2 & w1' & w2 & w3 & H & _).
    discriminate. }
  destruct (oracle (OpFetch GET (o ++ "/sitemap.xml")) w1)
    as [[e|s1] w2] eqn:E1; cbn [world trace heap].
  { eexists. split; [reflexivity|]. cbn [heap].
    change (hasSitemap (with_hasRobots (Some (ok r)) (heap s)))
      with (hasSitemap (heap s)).
    rewrite Hdef. split; [discriminate|].
    intros (r' & s1 & s2 & w1' & w2' & w3 & H & H1 & _).
    injection H as <- <-. rewrite E1 in H1. discriminate. }
  destruct (oracle (OpFetch GET (o ++ "/sitemap_index.xml")) w2)
    as [[e|s2] w3] eqn:E2; cbn [world trace heap].
  { eexists. split; [reflexivity|]. cbn [heap].
    change (hasSitemap (with_hasRobots (Some (ok r)) (heap s)))
      with (hasSitemap (heap s)).
    rewrite Hdef. split; [discriminate|].
    intros (r' & s1' & s2 & w1' & w2' & w3' & H & H1 & H2 & _).
    injection H as <- <-. rewrite E1 in H1. injection H1 as <- <-.
    rewrite E2 in H2. discriminate. }
  eexists. split; [reflexivity|]. cbn [heap].
  change (hasSitemap (with_hasSitemap (Some (ok s1 || ok s2))
                        (with_hasRobots (Some (ok r)) (heap s))))
    with (Some (ok s1 || ok s2)).
  split.
  - intros H. injection H as H. now exists r, s1, s2, w1, w2, w3.
  - intros (r' & s1' & s2' & w1' & w2' & w3' & H & H1 & H2 & Hok).
    injection H as <- <-. rewrite E1 in H1. injection H1 as <- <-.
    rewrite E2 in H2. injection H2 as <- <-. now rewrite Hok.
Qed.

(** The redirect check never throws and leaves the report alone. *)
Lemma checkRedirects_run (url0 : string) (s : State) :
  exists (issues : list RedirectIssue) (s' : State) (sent : list Op),
    checkRedirects url0 s = (inr issues, s')
    /\ trace s' = trace s ++ sent
    /\ heap s' = heap s.
Proof.
  unfold checkRedirects, try_catch, bind, new_URL.
  destruct (url_parse url0 None) as [parsed|];
    [|exists [], s, []; now rewrite app_nil_r].
  unfold ret. cbv beta iota zeta.
  match goal with
  | |- context [if ?c then _ else _] => destruct c
  end.
  - unfold fetch, perform_throwing.
    match goal with
    | |- context [oracle ?o ?w] => destruct (oracle o w) as [[e|res] w1]
    end; cbn [world trace heap].
    + eexists _, _, [_]. repeat split.
    + match goal with
      | |- context [if ?c then _ else _] => destruct c
      end; eexists _, _, [_]; repeat split.
  - exists [], s, []. now rewrite app_nil_r.
Qed.

End Blocks.

Section Audit.

Context {host : Host} {rt : Runtime}.

(** The three states the robots/sitemap block can leave the report in. *)
Ltac robots_cases H :=
  let E := fresh "E" in
  let b := fresh "b" in
  let c := fresh "c" in
  destruct H as [E|[(b & E)|(b & c & E)]]; rewrite E; reflexivity.

(** Every run of [runAudit], by what the primary fetch delivers: nothing
    (the report carries an error), an empty body (no error, nothing
    analysed, score still 0), or a body that is either rejected by the
    parser (error) or audited to the end. *)
Lemma runAudit_run (targetUrl : string) (s : State) :
  exists (r : AuditResult) (s' : State),
    runAudit targetUrl s = (inr r, s')
    /\ url r = targetUrl
    /\ match primary_body targetUrl (world s) with
       | None => error r <> None
       | Some html =>
           if truthy html
           then error r <> None \/ completed targetUrl html s r s'
           else error r = None
                /\ score r = Some 0
                /\ trace s'
                   = trace s ++ [OpNow; OpFetch GET targetUrl; OpNow; OpRandom]
       end.
Proof.
  destruct s as [w t h0]. cbn [world trace heap].
  unfold runAudit. rewrite bind_assign. cbv beta zeta. unfold bind at 1.
  pose proof (fetch_block_run targetUrl
                {| world := w; trace := t; heap := initial_result targetUrl |}) as F.
  cbn [world trace heap] in F. unfold primary_body.
  destruct (oracle OpNow w) as [t0 w1].
  destruct (oracle (OpFetch GET targetUrl) w1) as [[e|res] w2]; cbn [fst].
  { rewrite F. eexists _, _. split; [reflexivity|]. split; [reflexivity|].
    discriminate. }
  destruct (oracle OpNow w2) as [t1 w3].
  destruct (res_text res) as [e|html].
  { rewrite F. eexists _, _. split; [reflexivity|]. split; [reflexivity|].
    discriminate. }
  destruct (oracle OpRandom w3) as [rnd w4]. destruct F as (m & _ & ->).
  destruct (truthy html) eqn:Hhtml; cbn [negb].
  2:{ eexists _, _. split; [reflexivity|]. repeat split. }
  unfold bind at 1.
  match goal with
  | |- context [markup_block ?u ?h ?o ?st] =>
      pose proof (markup_block_run u h o st) as K; cbn [world trace heap] in K
  end.
  destruct (oracle (OpLoad html) w4) as [[e|dom] w5] eqn:Eload.
  { rewrite K. eexists _, _. split; [reflexivity|]. split; [reflexivity|].
    left. discriminate. }
  destruct K as (issues & s2 & sent2 & Elinks & _ & Ht2 & ->).
  unfold bind at 1.
  match goal with
  | |- context [resources_block ?u ?o ?st] =>
      destruct (resources_block_run u o st) as (s3 & sent3 & -> & Ht3 & Hh3)
  end.
  unfold bind at 1.
  destruct (checkRedirects_run targetUrl s3)
    as (found & s4 & sent4 & Ered & Ht4 & Hh4).
  rewrite Ered. destruct s4 as [w6 t6 h6].
  rewrite bind_assign, bind_read, bind_assign. unfold read_result.
  cbn [world trace heap] in *. subst h6 t6.
  eexists _, _. split; [reflexivity|].
  split; [robots_cases Hh3|].
  right. unfold completed.
  match type of Elinks with
  | checkBrokenLinks _ _ _ ?st = _ =>
      eexists dom, (with_redirects (Some found) (heap s3)), issues, found,
        w4, st, s2, s3, _
  end.
  split; [now rewrite Eload|].
  split; [cbn [trace]; rewrite <- !app_assoc; reflexivity|].
  split; [robots_cases Hh3|].
  split; [robots_cases Hh3|].
  split; [robots_cases Hh3|].
  split; [robots_cases Hh3|].
  split; [robots_cases Hh3|].
  split; [robots_cases Hh3|].
  split; [robots_cases Hh3|].
  split; [exact Elinks|].
  split; [robots_cases Hh3|].
  split; [now exists sent3|].
  split; [exact Ered|].
  split; [reflexivity|].
  split; [reflexivity|].
  split; [robots_cases Hh3|].
  reflexivity.
Qed.


End Audit.

Section AuditClaims.

Context {host : Host} {rt : Runtime}.



(** Amended C5: once the document is parsed, the block goes through without
    setting an error; the total link count is the number of all anchors;
    the external link count is the number of anchors with a non-empty href
    that resolves against the target to an origin other than the target's,
    so anchors whose href does not resolve are not counted as external. *)
Theorem markup_link_counts (targetUrl html : string) (s : State)
    (dom : CheerioAPI) (w1 : World) :
  oracle (OpLoad html) (world s) = (inr dom, w1) ->
  exists s' : State,
    markup_block targetUrl html (safeOrigin targetUrl) s = (inr (Next tt), s')
    /\ error (heap s') = error (heap s)
    /\ totalLinks (heap s') = Some (Z.of_nat (List.length (select dom "a")))
    /\ externalLinks (heap s')
       = Some (Z.of_nat
                 (List.length
                    (filter (is_external targetUrl (safeOrigin targetUrl))
                       (select dom "a"))))
    /\ forall el : Element,
         is_external targetUrl (safeOrigin targetUrl) el = true
         <-> exists (h : string) (u base : URL),
               attr el "href" = Some h
               /\ h <> ""
               /\ url_parse h (Some targetUrl) = Some u
               /\ url_parse targetUrl None = Some base
               /\ origin u <> origin base.
Proof.
  intros Hload.
  pose proof (markup_block_run targetUrl html (safeOrigin targetUrl) s) as K.
  rewrite Hload in K. destruct K as (issues & s2 & sent & _ & _ & _ & ->).
  eexists. split; [reflexivity|]. cbn [heap].
  split; [reflexivity|]. split; [reflexivity|]. split; [reflexivity|].
  intros el. unfold is_external, safeOrigin, truthy, or_empty.
  destruct (attr el "href") as [h|]; cbn [negb].
  - destruct (String.eqb_spec h "") as [->|Hne]; cbn [negb].
    + split; [discriminate|]. intros (h' & u & base & H & Hh & _).
      injection H as <-. contradiction.
    + destruct (url_parse h (Some targetUrl)) as [u|] eqn:Eu.
      * destruct (url_parse targetUrl None) as [base|] eqn:Eb; cbn [nullish_or].
        -- destruct (String.eqb_spec (origin u) (origin base)) as [Heq|Hneq];
             cbn [negb].
           ++ split; [discriminate|].
              intros (h' & u' & base' & H & _ & Hu & Hb & Ho).
              injection H as <-. rewrite Eu in Hu. injection Hu as <-.
              injection Hb as <-. contradiction.
           ++ split; [|reflexivity]. intros _. now exists h, u, base.
        -- rewrite String.eqb_refl. cbn [negb]. split; [discriminate|].
           intros (h' & u' & base' & _ & _ & _ & Hb & _).
           discriminate.
      * split; [discriminate|].
        intros (h' & u' & base' & H & _ & Hu & _). injection H as <-.
        rewrite Eu in Hu. discriminate.
  - rewrite String.eqb_refl. cbn [negb]. split; [discriminate|].
    intros (h & u & base & H & _). discriminate.
Qed.

(** C10: [runAudit] never throws; whatever the input string is and whatever
    the host answers or throws at each call, it returns a report whose [url]
    is the input string.  (Every call to the host is taken to come back,
    with an answer or with a thrown value.) *)
Theorem runAudit_total (targetUrl : string) (s : State) :
  exists (r : AuditResult) (s' : State),
    runAudit targetUrl s = (inr r, s') /\ url r = targetUrl.
Proof.
  destruct (runAudit_run targetUrl s) as (r & s' & E & Hurl & _).
  now exists r, s'.
Qed.

End AuditClaims.

(* ------------------------------------------------------------------ *)
(** * The properties on example.com *)


(** The page served with an empty body: no error, the default score, and
    nothing parsed. *)
Lemma runAudit_blank_body :
  fst blank_run = inr (report_of blank_run)
  /\ error (report_of blank_run) = None
  /\ status (report_of blank_run) = Some 200
  /\ score (report_of blank_run) = Some 0
  /\ calculateScore (report_of blank_run) = 90
  /\ trace (snd blank_run) = [OpNow; OpFetch GET home; OpNow; OpRandom].
Proof. vm_compute. repeat split. Qed.



(** What the run of the full page reports. *)
Lemma home_report :
  let r := report_of home_run in
  status r = Some 200
  /\ responseTimeMs r = Some 1200
  /\ title r = Some "Home"
  /\ totalImages r = Some 1
  /\ imgWithoutAlt r = Some 1
  /\ totalLinks r = Some 4
  /\ externalLinks r = Some 1
  /\ option_map (@List.length LinkIssue) (brokenLinks r) = Some 2%nat
  /\ hasRobots r = Some true
  /\ hasSitemap r = Some false
  /\ (ttfbMs r, fcpMs r, lcpMs r) = (Some 1150, Some 1151, Some 1551)
  /\ isHttps r = Some true
  /\ hasMixedContent r = Some true
  /\ redirects r = Some []
  /\ score r = Some 75.
Proof. vm_compute. repeat split. Qed.

(** C4 as stated fails when the limit is left out: six dead links give five
    issues, more than 3. *)
Lemma checkBrokenLinks_default_counterexample :
  ~ (forall (issues : list LinkIssue) (s' : State),
       checkBrokenLinks (host := six_links_host) six_links_dom home None
         (at_1000 down_site) = (inr issues, s') ->
       (List.length issues <= 3)%nat).
Proof.
  intros H.
  assert (E : checkBrokenLinks (host := six_links_host) six_links_dom home
                None (at_1000 down_site)
              = (inr (issues_of six_links_run), snd six_links_run))
    by (vm_compute; reflexivity).
  apply H in E. vm_compute in E. lia.
Qed.

(** The same page sampled the way [runAudit] does, with limit 3. *)
Lemma checkBrokenLinks_three_of_six :
  let run := checkBrokenLinks (host := six_links_host) six_links_dom home
               (Some 3%nat) (at_1000 down_site) in
  List.length (issues_of run) = 3%nat
  /\ trace (snd run)
     = [ OpFetch HEAD "https://example.com/1";
         OpFetch HEAD "https://example.com/2";
         OpFetch HEAD "https://example.com/3" ].
Proof. vm_compute. split; reflexivity. Qed.

(** C5 as stated fails on the full page: the anchor to [http://[] does not
    resolve and is still part of the total. *)
Lemma totalLinks_counterexample :
  ~ (forall (r : AuditResult) (s' : State),
       runAudit (host := home_host) home (at_1000 home_site) = (inr r, s') ->
       totalLinks r = count_of (resolving_anchors (host := home_host) home home_dom)).
Proof.
  intros H.
  assert (E : runAudit (host := home_host) home (at_1000 home_site)
              = (inr (report_of home_run), snd home_run))
    by (vm_compute; reflexivity).
  apply H in E. vm_compute in E. discriminate E.
Qed.

(** The full page through the markup block: the run of the amended C5. *)
Lemma markup_link_counts_witness :
  oracle (Runtime := home_rt) (OpLoad home_html) 1000 = (inr home_dom, 1000)
  /\ exists s' : State,
       markup_block (host := home_host) home home_html
         (safeOrigin (host := home_host) home) (at_1000 home_site)
       = (inr (Next tt), s')
       /\ totalLinks (heap s') = Some 4
       /\ externalLinks (heap s') = Some 1.
Proof.
  split; [reflexivity|].
  destruct (markup_link_counts (host := home_host) (rt := home_rt)
              home home_html (at_1000 home_site) home_dom 1000 eq_refl)
    as (s' & E & _ & Ht & He & _).
  exists s'. split; [exact E|]. split; [exact Ht|exact He].
Defined.

(** The www name parked elsewhere: the one probe, and the issue. *)
Lemma checkRedirects_parked :
  let run := checkRedirects (host := home_host) home (at_1000 parked_site) in
  fst run = inr [www_issue]
  /\ trace (snd run) = [OpFetch GET "https://www.example.com/"].
Proof. vm_compute. split; reflexivity. Qed.

(** The www name redirecting to the target: one probe, no issue. *)
Lemma checkRedirects_consistent :
  let run := checkRedirects (host := home_host) home (at_1000 home_site) in
  fst run = inr []
  /\ trace (snd run) = [OpFetch GET "https://www.example.com/"].
Proof. vm_compute. split; reflexivity. Qed.

(** C9 on [sitemap_site]: [/sitemap.xml] is requested and answers 200, the
    request for [/sitemap_index.xml] fails, and the report says there is no
    sitemap. *)
Theorem runAudit_sitemap_lost :
  fst sitemap_run = inr (report_of sitemap_run)
  /\ error (report_of sitemap_run) = None
  /\ hasRobots (report_of sitemap_run) = Some true
  /\ hasSitemap (report_of sitemap_run) = Some false
  /\ In (OpFetch GET "https://example.com/sitemap.xml") (trace (snd sitemap_run))
  /\ (exists res : Response,
        serve sitemap_site GET "https://example.com/sitemap.xml" = inr res
        /\ ok res = true)
  /\ serve sitemap_site GET "https://example.com/sitemap_index.xml"
     = inl fetch_failed.
Proof.
  split; [vm_compute; reflexivity|].
  split; [vm_compute; reflexivity|].
  split; [vm_compute; reflexivity|].
  split; [vm_compute; reflexivity|].
  split; [vm_compute; tauto|].
  split; [eexists; split; reflexivity|reflexivity].
Qed.

(* ------------------------------------------------------------------ *)
(** * Further properties of the pipeline *)

(** ** Alt text and the image inspector *)

Lemma trim_start_all_space (s : string) :
  all_space s = true -> trim_start s = "".
Proof.
  induction s as [|c s IH]; simpl; [reflexivity|].
  destruct (is_space c); simpl; [exact IH|discriminate].
Qed.

Lemma trim_start_not_all_space (s : string) :
  all_space s = false ->
  exists (c : ascii) (t : string), trim_start s = String c t /\ is_space c = false.
Proof.
  induction s as [|c s IH]; simpl; [discriminate|].
  destruct (is_space c) eqn:Hc; simpl; [exact IH|].
  intros _. now exists c, s.
Qed.

Lemma trim_blank_iff (s : string) : trim s = "" <-> all_space s = true.
Proof.
  unfold trim. split.
  - intros H. destruct (all_space s) eqn:Hs; [reflexivity|].
    destruct (trim_start_not_all_space s Hs) as (c & t & E & Hc).
    rewrite E in H. simpl in H. rewrite Hc in H. discriminate.
  - intros H. now rewrite trim_start_all_space.
Qed.

(** X1: the alt test of lines 107 and 281-284 holds exactly for an absent
    attribute and for a value made of white space only (the empty value
    included). *)
Theorem alt_missing_whitespace (a : option string) :
  alt_missing a = true
  <-> a = None \/ exists s : string, a = Some s /\ all_space s = true.
Proof.
  rewrite alt_missing_blank. destruct a as [s|].
  - destruct (String.eqb_spec (trim s) "") as [E|E].
    + split; [|reflexivity]. intros _. right. exists s.
      split; [reflexivity|]. now apply trim_blank_iff.
    + split; [discriminate|]. intros [H|(s' & H & Hs)]; [discriminate|].
      injection H as <-. now apply trim_blank_iff in Hs.
  - split; [now left|reflexivity].
Qed.

Lemma In_firstn {A : Type} (n : nat) (l : list A) (x : A) :
  In x (firstn n l) -> In x l.
Proof.
  intros H. rewrite <- (firstn_skipn n l). apply in_or_app. now left.
Qed.

Lemma analyzeImages_filter (dom : CheerioAPI) :
  analyzeImages dom
  = firstn 10 (map image_issue (filter flagged (select dom "img"))).
Proof.
  unfold analyzeImages.
  now rewrite (push_if_fold flagged image_issue).
Qed.

Lemma flagged_qualifies (el : Element) : flagged el = qualifies el.
Proof.
  unfold flagged, qualifies.
  destruct (image_issue_flags el) as (-> & -> & ->). reflexivity.
Qed.

(** X2: every entry of the image-issue list has a source of at most 80 code
    units and at least one of its three flags set. *)
Theorem analyzeImages_entries (dom : CheerioAPI) :
  Forall
    (fun i : ImageIssue =>
       (String.length (src i) <= 80)%nat
       /\ alt i || missingFormats i || oversized i = true)
    (analyzeImages dom).
Proof.
  rewrite analyzeImages_filter. apply Forall_forall. intros i Hi.
  apply In_firstn in Hi. apply in_map_iff in Hi.
  destruct Hi as (el & <- & Hel). apply filter_In in Hel.
  split; [apply slice0_length|exact (proj2 Hel)].
Qed.

(** X3: the image-issue list is empty exactly when every image of the page
    has a non-blank alt, a source that mentions [.webp] and none of the
    words large, big, original in its source. *)
Theorem analyzeImages_empty_iff (dom : CheerioAPI) :
  analyzeImages dom = []
  <-> forall el : Element,
        In el (select dom "img") ->
        flag_missing_alt el = false
        /\ flag_missing_modern_format el = false
        /\ flag_oversize el = false.
Proof.
  rewrite analyzeImages_filter. split.
  - intros H el Hel.
    destruct (qualifies el) eqn:Hq.
    + assert (Hin : In (image_issue el)
                      (map image_issue (filter flagged (select dom "img")))).
      { apply in_map, filter_In. split; [exact Hel|].
        now rewrite flagged_qualifies. }
      destruct (map image_issue (filter flagged (select dom "img")));
        [destruct Hin|discriminate H].
    + unfold qualifies in Hq.
      destruct (flag_missing_alt el), (flag_missing_modern_format el),
        (flag_oversize el); try discriminate Hq. repeat split.
  - intros H.
    assert (E : filter flagged (select dom "img") = []).
    { induction (select dom "img") as [|el l IH]; [reflexivity|]. simpl.
      rewrite flagged_qualifies. unfold qualifies.
      destruct (H el (or_introl eq_refl)) as (-> & -> & ->). simpl.
      apply IH. intros el' Hel'. apply H. now right. }
    now rewrite E.
Qed.

Lemma flagged_none_alt_none (imgs : list Element) :
  filter flagged imgs = [] ->
  filter (fun el => alt_missing (attr el "alt")) imgs = [].
Proof.
  induction imgs as [|el l IH]; [reflexivity|].
  cbn [filter]. unfold flagged at 1.
  change (alt_missing (attr el "alt")) with (alt (image_issue el)).
  destruct (alt (image_issue el)); cbn [orb]; [discriminate|].
  destruct (missingFormats (image_issue el) || oversized (image_issue el));
    [discriminate|exact IH].
Qed.

(** X4: the alt-flagged entries of the image-issue list are never more than
    the images counted as lacking alt text, and the list is not empty as
    soon as one image lacks alt text. *)
Theorem analyzeImages_alt_consistent (dom : CheerioAPI) :
  let without_alt :=
    filter (fun el => alt_missing (attr el "alt")) (select dom "img") in
  (List.length (filter alt (analyzeImages dom)) <= List.length without_alt)%nat
  /\ (without_alt <> [] -> analyzeImages dom <> []).
Proof.
  intros without_alt. subst without_alt. rewrite analyzeImages_filter.
  set (imgs := select dom "img"). split.
  - transitivity
      (List.length (filter alt (map image_issue (filter flagged imgs)))).
    + generalize (map image_issue (filter flagged imgs)). intros l.
      rewrite <- (firstn_skipn 10 l) at 2. rewrite filter_app, length_app. lia.
    + induction imgs as [|el l IH]; [simpl; lia|].
      cbn [filter]. unfold flagged at 1.
      change (alt_missing (attr el "alt")) with (alt (image_issue el)).
      destruct (alt (image_issue el)) eqn:Ha; cbn [orb].
      * cbn [map filter]. rewrite Ha. cbn [List.length]. lia.
      * destruct (missingFormats (image_issue el) || oversized (image_issue el));
          [cbn [map filter]; rewrite Ha|]; exact IH.
  - intros Hne Hnil.
    assert (E : filter flagged imgs = []).
    { destruct (filter flagged imgs); [reflexivity|discriminate Hnil]. }
    apply Hne. now apply flagged_none_alt_none.
Qed.

(** ** Scorer *)

(** X5: the score is 100 exactly when no deduction applies: secure scheme,
    viewport tag, no image without alt, no broken link, no mixed content
    and a latency of at most 3000 ms. *)
Theorem calculateScore_perfect (r : AuditResult) :
  calculateScore r = 100
  <-> truthy_flag (isHttps r) = true
      /\ truthy_flag (hasViewport r) = true
      /\ nullish_or (imgWithoutAlt r) 0 <= 0
      /\ length_or_0 (brokenLinks r) <= 0
      /\ truthy_flag (hasMixedContent r) = false
      /\ nullish_or (responseTimeMs r) 0 <= 3000.
Proof.
  rewrite calculateScore_sum.
  unfold deduct_scheme, deduct_viewport, deduct_alt,
    deduct_links, deduct_mixed, deduct_latency.
  destruct (truthy_flag (isHttps r)), (truthy_flag (hasViewport r)),
    (truthy_flag (hasMixedContent r));
    destruct (Z.ltb_spec 0 (nullish_or (imgWithoutAlt r) 0)),
      (Z.ltb_spec 0 (length_or_0 (brokenLinks r))),
      (Z.ltb_spec 3000 (nullish_or (responseTimeMs r) 0));
    split; intros HH; repeat split; try discriminate; try lia;
    destruct HH as (? & ? & ? & ? & ? & ?); try discriminate; lia.
Qed.

(** X6: one more broken link costs exactly two points while fewer than five
    are recorded, and nothing from the fifth on. *)
Theorem calculateScore_broken_link_cost (r : AuditResult)
    (x : LinkIssue) (l : list LinkIssue) :
  calculateScore (with_brokenLinks (Some (x :: l)) r)
  = calculateScore (with_brokenLinks (Some l) r)
    - (if (List.length l <? 5)%nat then 2 else 0).
Proof.
  rewrite !calculateScore_sum.
  unfold deduct_scheme, deduct_viewport, deduct_alt,
    deduct_links, deduct_mixed, deduct_latency, with_brokenLinks.
  cbn [isHttps hasViewport imgWithoutAlt brokenLinks hasMixedContent
       responseTimeMs length_or_0 List.length].
  pose proof (deductions_bounded r) as B.
  unfold deduct_scheme, deduct_viewport, deduct_alt,
    deduct_mixed, deduct_latency in B.
  destruct B as (B1 & B2 & B3 & _ & B5 & B6).
  destruct (Nat.ltb_spec (List.length l) 5);
    destruct (Z.ltb_spec 0 (Z.of_nat (S (List.length l))));
    destruct (Z.ltb_spec 0 (Z.of_nat (List.length l))); lia.
Qed.

(** X7: one more image without alt text costs exactly one point while fewer
    than five are counted, and nothing from the fifth on. *)
Theorem calculateScore_missing_alt_cost (r : AuditResult) (n : Z) :
  0 <= n ->
  calculateScore (with_imgWithoutAlt (Some (n + 1)) r)
  = calculateScore (with_imgWithoutAlt (Some n) r)
    - (if (n <? 5)%Z then 1 else 0).
Proof.
  intros Hn. rewrite !calculateScore_sum.
  unfold deduct_scheme, deduct_viewport, deduct_alt,
    deduct_links, deduct_mixed, deduct_latency, with_imgWithoutAlt.
  cbn [isHttps hasViewport imgWithoutAlt brokenLinks hasMixedContent
       responseTimeMs nullish_or].
  pose proof (deductions_bounded r) as B.
  unfold deduct_scheme, deduct_viewport, deduct_links,
    deduct_mixed, deduct_latency in B.
  destruct B as (B1 & B2 & _ & B4 & B5 & B6).
  destruct (Z.ltb_spec n 5); destruct (Z.ltb_spec 0 (n + 1));
    destruct (Z.ltb_spec 0 n); lia.
Qed.

(** ** Rounding the time to first byte *)

Lemma Qfloor_shift (z : Z) (x : Q) : Qfloor (inject_Z z + x) = z + Qfloor x.
Proof.
  assert (Hlo : z + Qfloor x <= Qfloor (inject_Z z + x)).
  { rewrite <- (Qfloor_Z (z + Qfloor x)). apply Qfloor_resp_le.
    rewrite inject_Z_plus. pose proof (Qfloor_le x). lra. }
  assert (Hhi : Qfloor (inject_Z z + x) < z + Qfloor x + 1).
  { rewrite Zlt_Qlt.
    apply Qle_lt_trans with (inject_Z z + x)%Q; [apply Qfloor_le|].
    rewrite !inject_Z_plus. pose proof (Qlt_floor x) as H.
    rewrite inject_Z_plus in H. lra. }
  lia.
Qed.

Lemma Math_round_shift (z : Z) (x : Q) :
  Math_round (inject_Z z + x) = z + Math_round x.
Proof.
  unfold Math_round. rewrite <- Qfloor_shift. apply Qfloor_comp. ring.
Qed.

Lemma Qmax_inject (a b : Z) : (Qmax (inject_Z a) (inject_Z b) == inject_Z (Z.max a b))%Q.
Proof.
  destruct (Z.max_spec a b) as [[H ->]|[H ->]].
  - apply Q.max_r. rewrite <- Zle_Qle. lia.
  - apply Q.max_l. rewrite <- Zle_Qle. lia.
Qed.

Lemma Math_round_ttfb (L : Z) :
  Math_round (Qmax (inject_Z L - 50) 0) = Z.max (L - 50) 0.
Proof.
  assert (Et : (Qmax (inject_Z L - 50) 0 == inject_Z (Z.max (L - 50) 0))%Q).
  { rewrite <- Qmax_inject. apply Q.max_compat; [|reflexivity].
    unfold Zminus. rewrite inject_Z_plus. reflexivity. }
  transitivity (Math_round (inject_Z (Z.max (L - 50) 0) + 0)).
  - unfold Math_round. apply Qfloor_comp. rewrite Et. ring.
  - rewrite Math_round_shift. change (Math_round 0) with 0. lia.
Qed.


(** ** Link health prober *)

Lemma distinct_from_spec (l : list string) :
  forall seen : list string,
    NoDup (distinct_from seen l)
    /\ forall x : string,
         In x (distinct_from seen l) -> In x l /\ ~ In x seen.
Proof.
  induction l as [|h t IH]; intros seen; simpl.
  - split; [constructor|]. intros x [].
  - destruct (existsb (String.eqb h) seen) eqn:Hin.
    + destruct (IH seen) as [Hnd Hsub]. split; [exact Hnd|].
      intros x Hx. destruct (Hsub x Hx). split; [now right|assumption].
    + destruct (IH (seen ++ [h])) as [Hnd Hsub]. split.
      * constructor; [|exact Hnd]. intros Hh.
        destruct (Hsub h Hh) as [_ Hno]. apply Hno, in_or_app. right. now left.
      * intros x [<-|Hx].
        -- split; [now left|]. intros Hseen.
           assert (existsb (String.eqb h) seen = true).
           { apply existsb_exists. exists h. split; [exact Hseen|].
             apply String.eqb_refl. }
           congruence.
        -- destruct (Hsub x Hx) as [Hl Hno]. split; [now right|].
           intros Hseen. apply Hno, in_or_app. now left.
Qed.

Lemma NoDup_firstn {A : Type} (n : nat) (l : list A) :
  NoDup l -> NoDup (firstn n l).
Proof.
  revert l. induction n as [|n IH]; intros l H; [constructor|].
  destruct l as [|x l]; [constructor|]. simpl.
  inversion H as [|? ? Hx Hl]; subst. constructor; [|now apply IH].
  intros Hin. apply Hx. now apply In_firstn in Hin.
Qed.

Section LinkProberEffects.

Context {host : Host} {rt : Runtime}.

(** One probe, by what it leaves behind. *)
Lemma probe_link_effects (baseUrl h : string) (st : LinkLoop) (s : State) :
  exists (st1 : LinkLoop) (s1 : State) (issues : list LinkIssue),
    probe_link baseUrl h st s = (inr st1, s1)
    /\ checked st1 = checked st ++ [h]
    /\ links st1 = links st ++ issues
    /\ trace s1 = trace s ++ requests_of baseUrl [h]
    /\ Forall link_issue_ok issues
    /\ (url_parse h (Some baseUrl) = None ->
        issues = [broken_issue h] /\ world s1 = world s).
Proof.
  assert (Hb : link_issue_ok (broken_issue h)).
  { split; [reflexivity|]. split; [apply slice0_length|exact I]. }
  unfold probe_link, try_catch, bind, new_URL, requests_of, fetch,
    perform_throwing, ret, throw.
  cbn [flat_map].
  destruct (url_parse h (Some baseUrl)) as [u|]; cbn [app].
  - destruct (oracle (OpFetch HEAD (href u)) (world s)) as [[e|res] w];
      cbn [world trace heap].
    + eexists _, _, [broken_issue h]. split; [reflexivity|].
      cbn [checked links trace]. repeat split; try discriminate.
      now constructor.
    + destruct (Z.geb_spec (res_status res) 400) as [Hge|Hlt].
      * eexists _, _, [_]. split; [reflexivity|].
        cbn [checked links trace]. repeat split; try discriminate.
        constructor; [|constructor]. split; [reflexivity|].
        split; [apply slice0_length|exact Hge].
      * eexists _, _, []. split; [reflexivity|].
        cbn [checked links trace]. rewrite app_nil_r.
        repeat split; try discriminate. constructor.
  - eexists _, _, [broken_issue h]. split; [reflexivity|].
    cbn [checked links trace world]. rewrite app_nil_r. repeat split.
    now constructor.
Qed.

(** The loop, by what it leaves behind: the hrefs it probed, the issues it
    recorded for them and the requests it sent. *)
Lemma links_loop_effects (baseUrl : string) (limit : nat)
    (anchors : list Element) :
  forall (st st' : LinkLoop) (s s' : State),
    links_loop anchors baseUrl limit st s = (inr st', s') ->
    exists (new : list string) (issues : list LinkIssue),
      checked st' = checked st ++ new
      /\ links st' = links st ++ issues
      /\ trace s' = trace s ++ requests_of baseUrl new
      /\ Forall link_issue_ok issues
      /\ ((forall h : string, In h new -> url_parse h (Some baseUrl) = None) ->
          issues = map broken_issue new /\ world s' = world s).
Proof.
  assert (Hnil : forall (st : LinkLoop) (s : State),
            exists (new : list string) (issues : list LinkIssue),
              checked st = checked st ++ new
              /\ links st = links st ++ issues
              /\ trace s = trace s ++ requests_of baseUrl new
              /\ Forall link_issue_ok issues
              /\ ((forall h : string, In h new ->
                     url_parse h (Some baseUrl) = None) ->
                  issues = map broken_issue new /\ world s = world s)).
  { intros st s. exists [], []. cbn [requests_of flat_map map].
    rewrite !app_nil_r. repeat split. constructor. }
  induction anchors as [|a rest IH]; intros st st' s s' H.
  - injection H as <- <-. apply Hnil.
  - cbn [links_loop] in H.
    destruct (count st <? limit)%nat; [|injection H as <- <-; apply Hnil].
    destruct (skipped (checked st) (or_empty (attr a "href")));
      [exact (IH _ _ _ _ H)|].
    unfold bind in H.
    destruct (probe_link_effects baseUrl (or_empty (attr a "href")) st s)
      as (st1 & s1 & issues1 & E1 & Hc1 & Hl1 & Ht1 & Hok1 & Hun1).
    rewrite E1 in H.
    destruct (IH _ _ _ _ H) as (new & issues & Hc & Hl & Ht & Hok & Hun).
    exists (or_empty (attr a "href") :: new), (issues1 ++ issues).
    rewrite Hc, Hc1, Hl, Hl1, Ht, Ht1. unfold requests_of.
    cbn [flat_map]. rewrite app_nil_r, <- !app_assoc.
    split; [reflexivity|]. split; [reflexivity|]. split; [reflexivity|].
    split; [apply Forall_app; now split|].
    intros Hnone.
    destruct (Hun1 (Hnone _ (or_introl eq_refl))) as [-> Hw1].
    destruct Hun as [-> Hw]; [intros h Hh; apply Hnone; now right|].
    split; [reflexivity|congruence].
Qed.

(** X9: the prober returns, and every issue it returns is marked broken,
    shows a URL of at most 80 code units, and carries either no status or a
    status of at least 400. *)
Theorem checkBrokenLinks_issues_ok (dom : CheerioAPI) (baseUrl : string)
    (limit : option nat) (s : State) :
  exists (issues : list LinkIssue) (s' : State),
    checkBrokenLinks dom baseUrl limit s = (inr issues, s')
    /\ Forall link_issue_ok issues.
Proof.
  unfold checkBrokenLinks, checkBrokenLinks_state, bind, ret.
  destruct (links_loop_run baseUrl (nullish_or limit default_limit)
              (select dom "a") {| links := []; checked := []; count := 0 |} s)
    as (st & s' & sent & E & _).
  rewrite E. exists (links st), s'. split; [reflexivity|].
  destruct (links_loop_effects _ _ _ _ _ _ _ E)
    as (new & found & _ & Hl & _ & Hok & _).
  rewrite Hl. exact Hok.
Qed.

Lemma links_probed (dom : CheerioAPI) (baseUrl : string)
    (limit : option nat) (s : State) :
  exists (st : LinkLoop) (s' : State),
    checkBrokenLinks_state dom baseUrl limit s = (inr st, s')
    /\ checked st
       = firstn (nullish_or limit default_limit)
           (distinct_from [] (filter probeable (anchor_hrefs dom)))
    /\ NoDup (checked st)
    /\ (forall h : string, In h (checked st) ->
          In h (anchor_hrefs dom) /\ h <> "" /\ startsWith h "#" = false)
    /\ trace s' = trace s ++ requests_of baseUrl (checked st).
Proof.
  unfold checkBrokenLinks_state.
  destruct (links_loop_run baseUrl (nullish_or limit default_limit)
              (select dom "a") {| links := []; checked := []; count := 0 |} s)
    as (st & s' & sent & E & Hc & _).
  exists st, s'. split; [exact E|].
  destruct (links_loop_effects _ _ _ _ _ _ _ E) as (new & found & Hn & _ & Ht & _).
  cbn [checked count app] in Hc, Hn. subst new. rewrite Nat.sub_0_r in Hc.
  destruct (distinct_from_spec
              (filter probeable (map (fun a => or_empty (attr a "href"))
                                     (select dom "a"))) [])
    as [Hnd Hsub].
  split; [exact Hc|].
  split; [rewrite Hc; now apply NoDup_firstn|].
  split; [|exact Ht].
  intros h Hh. rewrite Hc in Hh. apply In_firstn in Hh.
  destruct (Hsub h Hh) as [Hin _]. apply filter_In in Hin.
  destruct Hin as [Hin Hp]. split; [exact Hin|].
  unfold probeable, truthy in Hp. apply andb_true_iff in Hp.
  destruct Hp as [Hne Hfrag].
  split.
  - intros ->. discriminate Hne.
  - now destruct (startsWith h "#").
Qed.

(** X10: the hrefs probed in one run are the first [limit] (5 when the
    limit is left out) distinct non-empty, non-fragment hrefs of the page,
    in document order; none is probed twice; and the requests sent are
    exactly the HEAD requests for the probed hrefs that resolve, each to
    its resolved URL, in that order. *)
Theorem checkBrokenLinks_requests (dom : CheerioAPI) (baseUrl : string)
    (limit : option nat) (s : State) :
  exists (st : LinkLoop) (s' : State),
    checkBrokenLinks_state dom baseUrl limit s = (inr st, s')
    /\ checked st
       = firstn (match limit with Some l => l | None => 5%nat end)
           (distinct_from [] (filter probeable (anchor_hrefs dom)))
    /\ NoDup (checked st)
    /\ (forall h : string, In h (checked st) ->
          In h (anchor_hrefs dom) /\ h <> "" /\ startsWith h "#" = false)
    /\ trace s' = trace s ++ requests_of baseUrl (checked st).
Proof.
  destruct (links_probed dom baseUrl limit s) as (st & s' & H).
  exists st, s'. destruct limit; exact H.
Qed.

Lemma requests_of_unresolvable (baseUrl : string) (l : list string) :
  (forall h : string, In h l -> url_parse h (Some baseUrl) = None) ->
  requests_of baseUrl l = [].
Proof.
  unfold requests_of. induction l as [|h t IH]; intros H; [reflexivity|].
  cbn [flat_map]. rewrite (H h (or_introl eq_refl)). cbn [app].
  apply IH. intros h' Hh'. apply H. now right.
Qed.

(** X11: when no href of the page resolves against the base (a base that
    does not parse, for one), the prober sends no request at all and
    records every probed href as broken, without a status. *)
Theorem checkBrokenLinks_unresolvable (dom : CheerioAPI) (baseUrl : string)
    (limit : option nat) (s : State) :
  (forall h : string, In h (anchor_hrefs dom) ->
     url_parse h (Some baseUrl) = None) ->
  exists (st : LinkLoop) (s' : State),
    checkBrokenLinks_state dom baseUrl limit s = (inr st, s')
    /\ links st = map broken_issue (checked st)
    /\ trace s' = trace s
    /\ world s' = world s.
Proof.
  intros Hnone.
  destruct (links_probed dom baseUrl limit s)
    as (st & s' & E & _ & _ & Hin & Ht).
  exists st, s'. split; [exact E|].
  unfold checkBrokenLinks_state in E.
  destruct (links_loop_effects _ _ _ _ _ _ _ E) as (new & found & Hn & Hl & _ & _ & Hun).
  cbn [checked links app] in Hn, Hl. subst new found.
  assert (Hall : forall h : string, In h (checked st) ->
                   url_parse h (Some baseUrl) = None).
  { intros h Hh. apply Hnone. now apply Hin. }
  destruct (Hun Hall) as [Hl Hw]. split; [exact Hl|]. split; [|exact Hw].
  rewrite Ht, (requests_of_unresolvable baseUrl _ Hall). apply app_nil_r.
Qed.

(** X12: with a limit of 0, or on a page whose hrefs are all empty or
    fragments, the prober returns no issue and leaves the world and the
    log untouched. *)
Theorem checkBrokenLinks_nothing_to_probe (dom : CheerioAPI)
    (baseUrl : string) (limit : option nat) (s : State) :
  limit = Some 0%nat
  \/ (forall h : string, In h (anchor_hrefs dom) -> probeable h = false) ->
  checkBrokenLinks dom baseUrl limit s = (inr [], s).
Proof.
  intros H. unfold checkBrokenLinks, checkBrokenLinks_state, bind, ret.
  assert (E : links_loop (select dom "a") baseUrl
                (nullish_or limit default_limit)
                {| links := []; checked := []; count := 0 |} s
              = (inr {| links := []; checked := []; count := 0 |}, s)).
  { unfold anchor_hrefs in H.
    induction (select dom "a") as [|a rest IH]; [reflexivity|].
    cbn [links_loop count checked].
    destruct H as [->|H]; [reflexivity|].
    destruct (0 <? nullish_or limit default_limit)%nat; [|reflexivity].
    rewrite skipped_probeable, (H _ (or_introl eq_refl)). cbn [negb orb].
    apply IH. right. intros h Hh. apply H. now right. }
  now rewrite E.
Qed.

End LinkProberEffects.

(** ** Orchestrator: every way a run can end *)

Section Outcomes.

Context {host : Host} {rt : Runtime}.

Lemma checkBrokenLinks_sent (dom : CheerioAPI) (baseUrl : string)
    (limit : nat) (s : State) :
  exists (issues : list LinkIssue) (s' : State) (sent : list Op),
    checkBrokenLinks dom baseUrl (Some limit) s = (inr issues, s')
    /\ (List.length issues <= limit)%nat
    /\ trace s' = trace s ++ sent
    /\ (List.length sent <= limit)%nat
    /\ Forall is_head_request sent
    /\ heap s' = heap s.
Proof.
  unfold checkBrokenLinks, checkBrokenLinks_state, bind. cbn [nullish_or].
  destruct (links_loop_run baseUrl limit (select dom "a")
              {| links := []; checked := []; count := 0 |} s)
    as (st & s' & sent & -> & Hc & Hn & Hl & Hb & Ht & Hs & Hh & Hp).
  cbn [links checked count List.length] in Hl, Hb, Hs.
  exists (links st), s', sent. repeat split; try assumption; lia.
Qed.

Lemma resources_block_sent (targetUrl : string) (origin_ : option string)
    (s : State) :
  exists (s' : State) (sent : list Op),
    resources_block targetUrl origin_ s = (inr tt, s')
    /\ trace s' = trace s ++ sent
    /\ (List.length sent <= 3)%nat
    /\ Forall is_get_request sent
    /\ robots_update (heap s) (heap s').
Proof.
  unfold resources_block.
  set (o := if negb (truthy (or_empty origin_))
            then or_empty (safeOrigin targetUrl) else or_empty origin_).
  unfold try_catch, bind, fetch, perform_throwing, assign, ret.
  assert (G : forall t : string, is_get_request (OpFetch GET t))
    by (intros t; now exists t).
  destruct (truthy o).
  - destruct (oracle (OpFetch GET (o ++ "/robots.txt")) (world s))
      as [[e|r] w1]; cbn [world trace heap].
    + eexists _, [_]. split; [reflexivity|]. cbn [world trace heap].
      repeat split; [simpl; lia|repeat constructor; apply G|constructor].
    + destruct (oracle (OpFetch GET (o ++ "/sitemap.xml")) w1)
        as [[e|s1] w2]; cbn [world trace heap].
      * eexists _, [_; _]. split; [reflexivity|]. cbn [world trace heap].
        split; [now rewrite <- app_assoc|].
        repeat split; [simpl; lia|repeat constructor; apply G|constructor].
      * destruct (oracle (OpFetch GET (o ++ "/sitemap_index.xml")) w2)
          as [[e|s2] w3]; cbn [world trace heap].
        -- eexists _, [_; _; _]. split; [reflexivity|]. cbn [world trace heap].
           split; [now rewrite <- !app_assoc|].
           repeat split; [simpl; lia|repeat constructor; apply G|constructor].
        -- eexists _, [_; _; _]. split; [reflexivity|]. cbn [world trace heap].
           split; [now rewrite <- !app_assoc|].
           repeat split; [simpl; lia|repeat constructor; apply G|constructor].
  - exists s, []. split; [reflexivity|]. rewrite app_nil_r.
    repeat split; [simpl; lia|constructor|constructor].
Qed.

Lemma checkRedirects_sent (url0 : string) (s : State) :
  exists (issues : list RedirectIssue) (s' : State) (sent : list Op),
    checkRedirects url0 s = (inr issues, s')
    /\ (issues = [] \/ issues = [www_issue])
    /\ trace s' = trace s ++ sent
    /\ (List.length sent <= 1)%nat
    /\ Forall is_get_request sent
    /\ heap s' = heap s.
Proof.
  unfold checkRedirects, try_catch, bind, new_URL.
  destruct (url_parse url0 None) as [parsed|].
  2:{ exists [], s, []. rewrite app_nil_r.
      repeat split; [now left|simpl; lia|constructor]. }
  unfold ret. cbv beta iota zeta.
  match goal with
  | |- context [if ?c then _ else _] => destruct c
  end.
  - unfold fetch, perform_throwing.
    match goal with
    | |- context [oracle (OpFetch GET ?t) ?w] =>
        destruct (oracle (OpFetch GET t) w) as [[e|res] w1];
        assert (G : is_get_request (OpFetch GET t)) by (now exists t)
    end; cbn [world trace heap].
    + eexists _, _, [_].
      repeat split; [now left|simpl; lia|repeat constructor; exact G].
    + match goal with
      | |- context [if ?c then _ else _] => destruct c
      end; eexists _, _, [_];
        (repeat split; [|simpl; lia|repeat constructor; exact G]);
        [now right|now left].
  - exists [], s, []. rewrite app_nil_r.
    repeat split; [now left|simpl; lia|constructor].
Qed.

Lemma markup_block_sent (targetUrl html : string) (origin_ : option string)
    (s : State) (dom : CheerioAPI) (w1 : World) :
  oracle (OpLoad html) (world s) = (inr dom, w1) ->
  exists (issues : list LinkIssue) (s2 : State) (heads : list Op),
    markup_block targetUrl html origin_ s = (inr (Next tt), s2)
    /\ (List.length issues <= 3)%nat
    /\ trace s2 = trace s ++ [OpLoad html] ++ heads
    /\ (List.length heads <= 3)%nat
    /\ Forall is_head_request heads
    /\ heap s2 = with_brokenLinks (Some issues)
                   (with_markup targetUrl html origin_ dom (heap s)).
Proof.
  intros Hload.
  pose proof (markup_block_run targetUrl html origin_ s) as K.
  rewrite Hload in K. cbv zeta in K.
  destruct K as (issues & s2 & sent & E & Hlen & _ & ->).
  match type of E with
  | checkBrokenLinks ?d ?u _ ?st = _ =>
      destruct (checkBrokenLinks_sent d u 3 st)
        as (issues' & s2' & heads & E' & _ & Ht & Hh & Hf & _)
  end.
  rewrite E in E'. injection E' as <- <-.
  exists issues, {| world := world s2; trace := trace s2;
                    heap := with_brokenLinks (Some issues)
                              (with_markup targetUrl html origin_ dom (heap s)) |},
         heads.
  cbn [world trace heap] in *.
  split; [reflexivity|]. split; [exact Hlen|].
  split; [now rewrite Ht, <- app_assoc|]. repeat split; assumption.
Qed.

(** Every run ends in one of the five outcomes. *)
Lemma runAudit_outcome (targetUrl : string) (s : State) :
  exists (r : AuditResult) (s' : State),
    runAudit targetUrl s = (inr r, s') /\ Outcome targetUrl s r s'.
Proof.
  destruct s as [w t h0].
  unfold runAudit. rewrite bind_assign. cbv beta zeta. unfold bind at 1.
  pose proof (fetch_block_run targetUrl
                {| world := w; trace := t; heap := initial_result targetUrl |}) as F.
  cbn [world trace heap] in F.
  destruct (oracle OpNow w) as [t0 w1].
  destruct (oracle (OpFetch GET targetUrl) w1) as [[e|res] w2].
  { rewrite F. eexists _, _. split; [reflexivity|].
    now apply FetchFailed with e. }
  destruct (oracle OpNow w2) as [t1 w3].
  destruct (res_text res) as [e|html] eqn:Etext.
  { rewrite F. eexists _, _. split; [reflexivity|].
    now apply BodyFailed with res (t1 - t0) e. }
  destruct (oracle OpRandom w3) as [rnd w4]. destruct F as (m & _ & ->).
  unfold truthy. destruct (String.eqb_spec html "") as [Hhtml|Hhtml];
    cbn [negb].
  { eexists _, _. split; [reflexivity|]. subst html.
    now apply EmptyBody with res (t1 - t0) m. }
  unfold bind at 1.
  destruct (oracle (OpLoad html) w4) as [[e|dom] w5] eqn:Eload.
  { match goal with
    | |- context [markup_block ?u ?h ?o ?st] =>
        pose proof (markup_block_run u h o st) as K;
        cbn [world trace heap] in K
    end.
    rewrite Eload in K. rewrite K. eexists _, _. split; [reflexivity|].
    apply ParseFailed with res (t1 - t0) m html e; try assumption;
      try reflexivity.
    cbn [trace]. now rewrite <- !app_assoc. }
  match goal with
  | |- context [markup_block ?u ?h ?o ?st] =>
      destruct (markup_block_sent u h o st dom w5 Eload)
        as (issues & s2 & heads & -> & Hlen & Ht2 & Hh2 & Hf2 & Hheap2)
  end.
  cbn [world trace heap] in Ht2, Hheap2.
  unfold bind at 1.
  destruct (resources_block_sent targetUrl (safeOrigin targetUrl) s2)
    as (s3 & gets & -> & Ht3 & Hh3 & Hf3 & Hrob).
  unfold bind at 1.
  destruct (checkRedirects_sent targetUrl s3)
    as (found & s4 & wwws & -> & Hfound & Ht4 & Hh4 & Hf4 & Hheap4).
  destruct s4 as [w6 t6 h6].
  rewrite bind_assign, bind_read, bind_assign. unfold read_result.
  cbn [world trace heap] in *. subst h6 t6.
  eexists _, _. split; [reflexivity|].
  rewrite Hheap2 in Hrob.
  apply Completed with res (t1 - t0) m html dom issues found (heap s3)
                       heads gets wwws; try assumption; try reflexivity.
  cbn [trace]. rewrite Ht3, Ht2. now rewrite <- !app_assoc.
Qed.

End Outcomes.

(** ** Orchestrator: what every report satisfies *)

Lemma filter_all {A : Type} (f : A -> bool) (l : list A) :
  Forall (fun x => f x = true) l -> filter f l = l.
Proof.
  induction 1 as [|x l Hx _ IH]; [reflexivity|].
  simpl. now rewrite Hx, IH.
Qed.

Lemma filter_none {A : Type} (f : A -> bool) (l : list A) :
  Forall (fun x => f x = false) l -> filter f l = [].
Proof.
  induction 1 as [|x l Hx _ IH]; [reflexivity|].
  simpl. now rewrite Hx.
Qed.

Section ReportInvariants.

Context {host : Host} {rt : Runtime}.

(** Reading a field through the updates of a completed run, and the
    fields of a report whose run stopped early. *)
Ltac through_robots H := destruct H; reflexivity.

Ltac read_early :=
  cbv [with_error with_estimate with_transport with_lcpMs with_fcpMs
       with_ttfbMs with_hasHsts with_isHttps with_contentType
       with_responseTimeMs with_status initial_result
       url status responseTimeMs contentType title metaDescription h1Count
       totalImages imgWithoutAlt imageIssues totalLinks brokenLinks
       externalLinks scriptsCount inlineStylesCount hasRobots hasSitemap
       ttfbMs fcpMs lcpMs hasViewport responsive isHttps hasHsts
       hasMixedContent redirects score error
       length_or_0 nullish_or List.length Z.of_nat].

(** X13: in every report, at most 3 broken links and at most 10 image
    issues are listed, never more image issues than images; the images
    without alt are at most the images, the external links at most the
    links; and [responsive] repeats [hasViewport]. *)
Theorem runAudit_report_counts (targetUrl : string) (s : State) :
  exists (r : AuditResult) (s' : State),
    runAudit targetUrl s = (inr r, s')
    /\ length_or_0 (brokenLinks r) <= 3
    /\ length_or_0 (imageIssues r) <= 10
    /\ length_or_0 (imageIssues r) <= nullish_or (totalImages r) 0
    /\ 0 <= nullish_or (imgWithoutAlt r) 0 <= nullish_or (totalImages r) 0
    /\ 0 <= nullish_or (externalLinks r) 0 <= nullish_or (totalLinks r) 0
    /\ responsive r = hasViewport r.
Proof.
  destruct (runAudit_outcome targetUrl s) as (r & s' & E & O).
  exists r, s'. split; [exact E|].
  destruct O as [e Hr _|res lat e _ Hr _|res lat m _ Hr _
                |res lat m html e _ _ Hr _
                |res lat m html dom issues found h3 heads gets wwws
                   _ _ Hlen Hrob _ Hr _ _ _ _ _ _ _];
    try (subst r; read_early; repeat split; lia).
  assert (Eb : brokenLinks r = Some issues) by (subst r; through_robots Hrob).
  assert (Ei : imageIssues r = Some (analyzeImages dom))
    by (subst r; through_robots Hrob).
  assert (Et : totalImages r = count_of (select dom "img"))
    by (subst r; through_robots Hrob).
  assert (Ea : imgWithoutAlt r
               = count_of (filter (fun el => alt_missing (attr el "alt"))
                             (select dom "img")))
    by (subst r; through_robots Hrob).
  assert (El : totalLinks r = count_of (select dom "a"))
    by (subst r; through_robots Hrob).
  assert (Ee : externalLinks r
               = count_of (filter (is_external targetUrl (safeOrigin targetUrl))
                             (select dom "a")))
    by (subst r; through_robots Hrob).
  assert (Ev : responsive r = hasViewport r) by (subst r; through_robots Hrob).
  rewrite Eb, Ei, Et, Ea, El, Ee. unfold count_of.
  cbn [length_or_0 nullish_or].
  rewrite analyzeImages_filter, length_firstn, length_map.
  pose proof (filter_length_le flagged (select dom "img")).
  pose proof (filter_length_le (fun el => alt_missing (attr el "alt"))
                (select dom "img")).
  pose proof (filter_length_le (is_external targetUrl (safeOrigin targetUrl))
                (select dom "a")).
  repeat split; try exact Ev; lia.
Qed.

(** X14: the score of every report is either the default 0 or a value
    between 45 and 100; a report that carries an error has score 0, no
    broken link, no redirect issue and both resource flags false. *)
Theorem runAudit_score_range (targetUrl : string) (s : State) :
  exists (r : AuditResult) (s' : State),
    runAudit targetUrl s = (inr r, s')
    /\ (score r = Some 0
        \/ exists n : Z, score r = Some n /\ 45 <= n <= 100)
    /\ (error r <> None ->
        score r = Some 0
        /\ brokenLinks r = Some []
        /\ redirects r = Some []
        /\ hasRobots r = Some false
        /\ hasSitemap r = Some false).
Proof.
  destruct (runAudit_outcome targetUrl s) as (r & s' & E & O).
  exists r, s'. split; [exact E|].
  destruct O as [e Hr _|res lat e _ Hr _|res lat m _ Hr _
                |res lat m html e _ _ Hr _
                |res lat m html dom issues found h3 heads gets wwws
                   _ _ Hlen Hrob _ Hr _ _ _ _ _ _ _];
    try (subst r; read_early; split; [now left|]; intros _; repeat split).
  split.
  - right. exists (calculateScore (with_redirects (Some found) h3)).
    split; [now subst r|].
    pose proof (calculateScore_at_least_45 (with_redirects (Some found) h3)).
    pose proof (calculateScore_sum (with_redirects (Some found) h3)) as Hs.
    pose proof (deductions_bounded (with_redirects (Some found) h3)). lia.
  - intros Herr. exfalso. apply Herr. subst r. through_robots Hrob.
Qed.

(** X15: a run starts with reading the clock and requesting the target;
    after that it sends at most 7 further requests, at most 3 of them HEAD
    requests, and parses at most one document. *)
Theorem runAudit_request_budget (targetUrl : string) (s : State) :
  exists (r : AuditResult) (s' : State) (later : list Op),
    runAudit targetUrl s = (inr r, s')
    /\ trace s' = trace s ++ [OpNow; OpFetch GET targetUrl] ++ later
    /\ (List.length (filter is_fetch later) <= 7)%nat
    /\ (List.length (filter is_head later) <= 3)%nat
    /\ (List.length
          (filter (fun o => match o with OpLoad _ => true | _ => false end) later)
        <= 1)%nat.
Proof.
  destruct (runAudit_outcome targetUrl s) as (r & s' & E & O).
  destruct O as [e _ Ht|res lat e _ _ Ht|res lat m _ _ Ht
                |res lat m html e _ _ _ Ht
                |res lat m html dom issues found h3 heads gets wwws
                   _ _ _ _ _ _ Ht Hh Hfh Hg Hfg Hw Hfw].
  - exists r, s', []. rewrite Ht. repeat split; simpl; lia || exact E.
  - exists r, s', [OpNow]. rewrite Ht. repeat split; simpl; lia || exact E.
  - exists r, s', [OpNow; OpRandom]. rewrite Ht.
    repeat split; simpl; lia || exact E.
  - exists r, s', [OpNow; OpRandom; OpLoad html]. rewrite Ht.
    repeat split; simpl; lia || exact E.
  - exists r, s', ([OpNow; OpRandom; OpLoad html] ++ heads ++ gets ++ wwws).
    split; [exact E|]. split; [rewrite Ht; reflexivity|].
    assert (Hh1 : Forall (fun o => is_fetch o = true) heads
                  /\ Forall (fun o => is_head o = true) heads).
    { split; eapply Forall_impl; try exact Hfh; intros o (t & ->); reflexivity. }
    assert (Hg1 : forall l : list Op, Forall is_get_request l ->
                    Forall (fun o => is_head o = false) l).
    { intros l Hl. eapply Forall_impl; [|exact Hl].
      intros o (t & ->). reflexivity. }
    assert (Hload : forall l : list Op,
              Forall (fun o => is_fetch o = true) l ->
              filter (fun o => match o with OpLoad _ => true | _ => false end) l
              = []).
    { intros l Hl. apply filter_none. eapply Forall_impl; [|exact Hl].
      intros [| |mth t|h]; try discriminate; reflexivity. }
    assert (Hg2 : forall l : list Op, Forall is_get_request l ->
                    Forall (fun o => is_fetch o = true) l).
    { intros l Hl. eapply Forall_impl; [|exact Hl].
      intros o (t & ->). reflexivity. }
    rewrite !filter_app, !length_app.
    rewrite (filter_none is_head gets (Hg1 _ Hfg)),
      (filter_none is_head wwws (Hg1 _ Hfw)),
      (filter_all is_head heads (proj2 Hh1)),
      (Hload heads (proj1 Hh1)), (Hload gets (Hg2 _ Hfg)),
      (Hload wwws (Hg2 _ Hfw)).
    pose proof (filter_length_le is_fetch heads).
    pose proof (filter_length_le is_fetch gets).
    pose proof (filter_length_le is_fetch wwws).
    simpl. repeat split; lia.
Qed.

End ReportInvariants.

(** ** Orchestrator: the early exits *)

Section EarlyExits.

Context {host : Host} {rt : Runtime}.

(** X16: when the target answers but reading its body throws, the report
    carries the error together with the status, latency, content type and
    security flags of the answer; the estimates and the score stay 0 and
    nothing is called after the second clock reading. *)
Theorem runAudit_body_failure (targetUrl : string) (s : State)
    (t0 t1 : Z) (w1 w2 w3 : World) (res : Response) (e : Exn) :
  oracle OpNow (world s) = (t0, w1) ->
  oracle (OpFetch GET targetUrl) w1 = (inr res, w2) ->
  oracle OpNow w2 = (t1, w3) ->
  res_text res = inl e ->
  exists (r : AuditResult) (s' : State),
    runAudit targetUrl s = (inr r, s')
    /\ error r = Some (describe e)
    /\ status r = Some (res_status res)
    /\ responseTimeMs r = Some (t1 - t0)
    /\ contentType r = headers_get res "content-type"
    /\ isHttps r = Some (startsWith (res_url res) "https:")
    /\ (ttfbMs r, fcpMs r, lcpMs r) = (Some 0, Some 0, Some 0)
    /\ score r = Some 0
    /\ trace s' = trace s ++ [OpNow; OpFetch GET targetUrl; OpNow].
Proof.
  intros H0 Hf H1 Ht.
  destruct s as [w t h0]. cbn [world trace heap] in *.
  unfold runAudit. rewrite bind_assign. cbv beta zeta. unfold bind at 1.
  pose proof (fetch_block_run targetUrl
                {| world := w; trace := t; heap := initial_result targetUrl |}) as F.
  cbn [world trace heap] in F. rewrite H0, Hf, H1, Ht in F. rewrite F.
  eexists _, _. split; [reflexivity|]. repeat split.
Qed.

(** X17: when the body is not empty and the parser throws, the report
    carries the error, the transport facts and the estimates; no link is
    counted or probed, no resource is requested, the score stays 0, and the
    call to the parser is the last call made. *)
Theorem runAudit_parse_failure (targetUrl : string) (s : State)
    (t0 t1 : Z) (w1 w2 w3 w4 w5 : World) (res : Response) (html : string)
    (rnd : Q) (e : Exn) :
  oracle OpNow (world s) = (t0, w1) ->
  oracle (OpFetch GET targetUrl) w1 = (inr res, w2) ->
  oracle OpNow w2 = (t1, w3) ->
  res_text res = inr html ->
  html <> "" ->
  oracle OpRandom w3 = (rnd, w4) ->
  oracle (OpLoad html) w4 = (inl e, w5) ->
  exists (r : AuditResult) (s' : State),
    runAudit targetUrl s = (inr r, s')
    /\ error r = Some (describe e)
    /\ status r = Some (res_status res)
    /\ responseTimeMs r = Some (t1 - t0)
    /\ ttfbMs r = Some (Math_round (Qmax (inject_Z (t1 - t0) - 50) 0))
    /\ totalLinks r = Some 0
    /\ brokenLinks r = Some []
    /\ hasRobots r = Some false
    /\ redirects r = Some []
    /\ score r = Some 0
    /\ trace s' = trace s ++ [OpNow; OpFetch GET targetUrl; OpNow; OpRandom;
                              OpLoad html].
Proof.
  intros H0 Hf H1 Ht Hne Hr Hl.
  destruct s as [w t h0]. cbn [world trace heap] in *.
  unfold runAudit. rewrite bind_assign. cbv beta zeta. unfold bind at 1.
  pose proof (fetch_block_run targetUrl
                {| world := w; trace := t; heap := initial_result targetUrl |}) as F.
  cbn [world trace heap] in F. rewrite H0, Hf, H1, Ht, Hr in F.
  destruct F as (m & Em & ->).
  unfold estimateMetrics, bind, Math_random, perform, ret in Em.
  cbn [world trace heap] in Em. rewrite Hr in Em. injection Em as <-.
  unfold truthy. destruct (String.eqb_spec html "") as [Heq|_];
    [contradiction|]. cbn [negb].
  unfold bind at 1.
  match goal with
  | |- context [markup_block ?u ?h ?o ?st] =>
      pose proof (markup_block_run u h o st) as K; cbn [world trace heap] in K
  end.
  rewrite Hl in K. rewrite K.
  eexists _, _. split; [reflexivity|]. cbn [trace].
  rewrite <- !app_assoc. repeat split.
Qed.

(** X18: when the target answers with an empty body, the report carries no
    error but only the transport facts and the estimates: nothing is
    parsed, counted, probed or scored, and [Math.random()] is the last call
    made. *)
Theorem runAudit_empty_body (targetUrl : string) (s : State)
    (t0 t1 : Z) (w1 w2 w3 : World) (res : Response) :
  oracle OpNow (world s) = (t0, w1) ->
  oracle (OpFetch GET targetUrl) w1 = (inr res, w2) ->
  oracle OpNow w2 = (t1, w3) ->
  res_text res = inr "" ->
  exists (r : AuditResult) (s' : State),
    runAudit targetUrl s = (inr r, s')
    /\ error r = None
    /\ status r = Some (res_status res)
    /\ responseTimeMs r = Some (t1 - t0)
    /\ ttfbMs r = Some (Z.max (t1 - t0 - 50) 0)
    /\ fcpMs r = Some (Z.max (t1 - t0 - 50) 0)
    /\ title r = None
    /\ totalImages r = Some 0
    /\ totalLinks r = Some 0
    /\ hasViewport r = Some false
    /\ score r = Some 0
    /\ trace s' = trace s ++ [OpNow; OpFetch GET targetUrl; OpNow; OpRandom].
Proof.
  intros H0 Hf H1 Ht.
  destruct s as [w t h0]. cbn [world trace heap] in *.
  unfold runAudit. rewrite bind_assign. cbv beta zeta. unfold bind at 1.
  pose proof (fetch_block_run targetUrl
                {| world := w; trace := t; heap := initial_result targetUrl |}) as F.
  cbn [world trace heap] in F. rewrite H0, Hf, H1, Ht in F.
  destruct (oracle OpRandom w3) as [rnd w4] eqn:Hr.
  destruct F as (m & Em & ->).
  unfold estimateMetrics, bind, Math_random, perform, ret in Em.
  cbn [world trace heap] in Em. rewrite Hr in Em. injection Em as <-.
  cbn [truthy String.eqb negb].
  eexists _, _. split; [reflexivity|].
  pose proof (Math_round_ttfb (t1 - t0)) as Et.
  assert (Ef : Math_round
                 (Qmax (inject_Z (t1 - t0) - 50) 0
                  + Qmin (inject_Z (Z.of_nat (String.length "")) / 100) 500)
               = Z.max (t1 - t0 - 50) 0).
  { rewrite <- Et. unfold Math_round. apply Qfloor_comp.
    assert (Hz : (Qmin (inject_Z (Z.of_nat (String.length "")) / 100) 500 == 0)%Q)
      by reflexivity.
    rewrite Hz. ring. }
  repeat split;
    cbv [with_estimate with_lcpMs with_fcpMs with_ttfbMs heap
         fcpMs ttfbMs fcp ttfb];
    [now rewrite Et|change (Z.of_nat (String.length "")) with 0 in Ef; now rewrite Ef].
Qed.

End EarlyExits.

(** ** Robots and sitemap probes, and a target that does not parse *)

Section Resources.

Context {host : Host} {rt : Runtime}.

(** X19: for a target the [URL] class rejects there is no origin, the
    robots/sitemap block and the redirect check send nothing and change
    nothing, and no anchor counts as external. *)
Theorem unparseable_target (targetUrl : string) :
  url_parse targetUrl None = None ->
  safeOrigin targetUrl = None
  /\ (forall s : State,
        resources_block targetUrl (safeOrigin targetUrl) s = (inr tt, s))
  /\ (forall s : State, checkRedirects targetUrl s = (inr [], s))
  /\ (forall el : Element,
        is_external targetUrl (safeOrigin targetUrl) el = false).
Proof.
  intros H.
  assert (E : safeOrigin targetUrl = None) by (unfold safeOrigin; now rewrite H).
  split; [exact E|]. rewrite E. split; [|split].
  - intros s. unfold resources_block. rewrite E. reflexivity.
  - intros s. unfold checkRedirects, try_catch, bind, new_URL.
    rewrite H. reflexivity.
  - intros el. unfold is_external.
    destruct (negb (truthy (or_empty (attr el "href")))); [reflexivity|].
    destruct (url_parse (or_empty (attr el "href")) (Some targetUrl));
      [|reflexivity].
    cbn [nullish_or]. now rewrite String.eqb_refl.
Qed.

(** X20: on a non-empty origin the block requests [/robots.txt]; if that
    request is answered it requests [/sitemap.xml]; if that one is answered
    too it requests [/sitemap_index.xml]; a request that fails ends the
    block.  [hasRobots] becomes true exactly when the first request is
    answered with a success status; no error is set. *)
Theorem resources_block_robots (targetUrl o : string) (s : State) :
  truthy o = true ->
  hasRobots (heap s) = Some false ->
  let robots := OpFetch GET (o ++ "/robots.txt") in
  let sitemap := OpFetch GET (o ++ "/sitemap.xml") in
  let sitemap_index := OpFetch GET (o ++ "/sitemap_index.xml") in
  exists s' : State,
    resources_block targetUrl (Some o) s = (inr tt, s')
    /\ trace s'
       = trace s
         ++ robots
            :: match oracle robots (world s) with
               | (inl _, _) => []
               | (inr _, w1) =>
                   sitemap
                   :: match oracle sitemap w1 with
                      | (inl _, _) => []
                      | (inr _, _) => [sitemap_index]
                      end
               end
    /\ (hasRobots (heap s') = Some true
        <-> exists (r : Response) (w1 : World),
              oracle robots (world s) = (inr r, w1) /\ ok r = true)
    /\ error (heap s') = error (heap s).
Proof.
  intros Ho Hdef robots sitemap sitemap_index.
  subst robots sitemap sitemap_index.
  unfold resources_block. cbn [or_empty]. rewrite Ho.
  cbn [negb]. cbv beta iota zeta. rewrite Ho.
  unfold try_catch, bind, fetch, perform_throwing, assign, ret.
  destruct (oracle (OpFetch GET (o ++ "/robots.txt")) (world s))
    as [[e|r] w1]; cbn [world trace heap].
  { eexists. split; [reflexivity|]. cbn [heap trace].
    split; [reflexivity|]. rewrite Hdef.
    split; [|reflexivity]. split; [discriminate|].
    intros (r & w & H & _). discriminate. }
  assert (Hrob : forall h : AuditResult,
            hasRobots h = Some (ok r) ->
            (hasRobots h = Some true
             <-> exists (r' : Response) (w' : World),
                   (@inr Exn Response r, w1) = (inr r', w') /\ ok r' = true)).
  { intros h ->. split.
    - intros H. injection H as H. now exists r, w1.
    - intros (r' & w' & H & Hok). injection H as <- <-. now rewrite Hok. }
  destruct (oracle (OpFetch GET (o ++ "/sitemap.xml")) w1)
    as [[e|s1] w2]; cbn [world trace heap].
  { eexists. split; [reflexivity|]. cbn [heap trace].
    split; [now rewrite <- app_assoc|].
    split; [now apply Hrob|reflexivity]. }
  destruct (oracle (OpFetch GET (o ++ "/sitemap_index.xml")) w2)
    as [[e|s2] w3]; cbn [world trace heap].
  { eexists. split; [reflexivity|]. cbn [heap trace].
    split; [now rewrite <- !app_assoc|].
    split; [now apply Hrob|reflexivity]. }
  eexists. split; [reflexivity|]. cbn [heap trace].
  split; [now rewrite <- !app_assoc|].
  split; [now apply Hrob|reflexivity].
Qed.

End Resources.

(** ** The API route and the score ring *)

Section RouteProperties.

Context {host : Host} {rt : Runtime}.

(** X21: the route never throws.  It answers 200 exactly for a request
    whose body is an object with a non-empty string [url] that parses; the
    body of the answer is then the report of [runAudit] on that string, with
    that string as its [url].  Every other request is answered 400 or 500
    with an error message, and nothing is called for it: no clock reading,
    no request, no parse. *)
Theorem POST_answers (request_json : Exn + Json) (s : State) :
  exists (response : RouteResponse) (s' : State),
    POST request_json s = (inr response, s')
    /\ match accepted_url request_json with
       | Some u =>
           exists r : AuditResult,
             runAudit u s = (inr r, s')
             /\ response = NextResponse_json (ReportBody r) 200
             /\ url r = u
       | None =>
           s' = s
           /\ exists message0 : string,
                route_body response = ErrorBody message0
                /\ (route_status response = 400 \/ route_status response = 500)
       end.
Proof.
  unfold POST, accepted_url, try_catch, bind at 1.
  destruct request_json as [e|body].
  { eexists _, _. split; [reflexivity|]. split; [reflexivity|].
    eexists. split; [reflexivity|]. now right. }
  destruct (property body "url") as [[ | b | q | u | items | fields]|];
    cbn [falsy is_string negb orb string_value];
    try (rewrite ?orb_true_r; eexists _, _; split; [reflexivity|];
         split; [reflexivity|]; eexists; split; [reflexivity|]; now left).
  destruct (truthy u); cbn [negb orb].
  2:{ eexists _, _. split; [reflexivity|]. split; [reflexivity|].
      eexists. split; [reflexivity|]. now left. }
  unfold bind, try_catch, new_URL.
  destruct (url_parse u None) as [parsed|].
  - unfold ret at 1 2. cbv beta iota.
    destruct (runAudit_run u s) as (r & s' & E & Hurl & _).
    rewrite E. eexists _, _. split; [reflexivity|]. now exists r.
  - eexists _, _. split; [reflexivity|]. split; [reflexivity|].
    eexists. split; [reflexivity|]. now left.
Qed.

(** X22: the score ring is red for the default score 0 and for no score
    the scorer computes, so among the reports of [runAudit] it is red
    exactly for those whose score is still 0. *)
Theorem getColor_red_only_default (targetUrl : string) (s : State) :
  (forall r : AuditResult, getColor (calculateScore r) <> "#ef4444")
  /\ exists (r : AuditResult) (s' : State),
       runAudit targetUrl s = (inr r, s')
       /\ (getColor (nullish_or (score r) 0) = "#ef4444" <-> score r = Some 0).
Proof.
  assert (Hnever : forall n : Z, 45 <= n -> getColor n <> "#ef4444").
  { intros n Hn. unfold getColor.
    destruct (Z.geb_spec n 80); [discriminate|].
    destruct (Z.geb_spec n 60); [discriminate|].
    destruct (Z.geb_spec n 40); [discriminate|lia]. }
  split.
  - intros r. apply Hnever, calculateScore_at_least_45.
  - destruct (runAudit_outcome targetUrl s) as (r & s' & E & O).
    exists r, s'. split; [exact E|].
    destruct O as [e Hr _|res lat e _ Hr _|res lat m _ Hr _
                  |res lat m html e _ _ Hr _
                  |res lat m html dom issues found h3 heads gets wwws
                     _ _ _ _ _ Hr _ _ _ _ _ _ _];
      try (subst r; split; reflexivity).
    assert (Es : score r
                 = Some (calculateScore (with_redirects (Some found) h3)))
      by now subst r.
    rewrite Es. cbn [nullish_or].
    pose proof (calculateScore_at_least_45 (with_redirects (Some found) h3)).
    split.
    + intros Hc. now apply Hnever in Hc.
    + intros Hz. injection Hz as Hz. lia.
Qed.

End RouteProperties.

(* ------------------------------------------------------------------ *)
(** * The further properties on example.com *)

(** A third image without alt text costs one more point. *)
Lemma calculateScore_missing_alt_cost_witness :
  0 <= 2
  /\ calculateScore (with_imgWithoutAlt (Some (2 + 1)) (initial_result home))
     = calculateScore (with_imgWithoutAlt (Some 2) (initial_result home))
       - (if 2 <? 5 then 1 else 0)%Z.
Proof.
  assert (H : 0 <= 2) by lia.
  split; [exact H|].
  exact (calculateScore_missing_alt_cost (initial_result home) 2 H).
Defined.

(** Six links against a base that does not parse: three are recorded as
    broken and nothing is requested. *)
Lemma checkBrokenLinks_unresolvable_witness :
  (forall h : string, In h (anchor_hrefs six_links_dom) ->
     url_parse (Host := no_url_host) h (Some "not a url") = None)
  /\ exists (st : LinkLoop) (s' : State),
       checkBrokenLinks_state (host := no_url_host) six_links_dom "not a url"
         (Some 3%nat) (at_1000 down_site) = (inr st, s')
       /\ links st = map broken_issue (checked st)
       /\ trace s' = []
       /\ world s' = 1000.
Proof.
  assert (H : forall h : string, In h (anchor_hrefs six_links_dom) ->
                url_parse (Host := no_url_host) h (Some "not a url") = None)
    by (intros h _; reflexivity).
  split; [exact H|].
  exact (checkBrokenLinks_unresolvable (host := no_url_host)
           (rt := site_runtime down_site) six_links_dom "not a url"
           (Some 3%nat) (at_1000 down_site) H).
Defined.

(** The six-link page sampled with a limit of 0. *)
Lemma checkBrokenLinks_nothing_to_probe_witness :
  (Some 0%nat = Some 0%nat
   \/ (forall h : string, In h (anchor_hrefs six_links_dom) ->
         probeable h = false))
  /\ checkBrokenLinks (host := six_links_host) six_links_dom home (Some 0%nat)
       (at_1000 down_site)
     = (inr [], at_1000 down_site).
Proof.
  split; [now left|].
  exact (checkBrokenLinks_nothing_to_probe (host := six_links_host)
           (rt := site_runtime down_site) six_links_dom home (Some 0%nat)
           (at_1000 down_site) (or_introl eq_refl)).
Defined.

(** The page whose body cannot be read. *)
Lemma runAudit_body_failure_witness :
  oracle (Runtime := site_runtime aborted_site) OpNow 1000 = (1000, 2200)
  /\ oracle (Runtime := site_runtime aborted_site) (OpFetch GET home) 2200
     = (inr aborted_response, 2200)
  /\ oracle (Runtime := site_runtime aborted_site) OpNow 2200 = (2200, 3400)
  /\ res_text aborted_response = inl body_aborted
  /\ exists (r : AuditResult) (s' : State),
       runAudit (host := home_host) home (at_1000 aborted_site) = (inr r, s')
       /\ error r = Some "terminated"
       /\ status r = Some 200
       /\ responseTimeMs r = Some 1200
       /\ score r = Some 0
       /\ trace s' = [OpNow; OpFetch GET home; OpNow].
Proof.
  repeat (split; [reflexivity|]).
  destruct (runAudit_body_failure (host := home_host)
              (rt := site_runtime aborted_site) home (at_1000 aborted_site)
              1000 2200 2200 2200 3400 aborted_response body_aborted
              eq_refl eq_refl eq_refl eq_refl)
    as (r & s' & E & He & Hs & Hl & _ & _ & _ & Hsc & Ht).
  exists r, s'. repeat split; assumption.
Defined.

(** The page whose markup the parser rejects. *)
Lemma runAudit_parse_failure_witness :
  oracle (Runtime := unparsable_rt) OpNow 1000 = (1000, 2200)
  /\ oracle (Runtime := unparsable_rt) (OpFetch GET home) 2200
     = (inr home_response, 2200)
  /\ oracle (Runtime := unparsable_rt) OpNow 2200 = (2200, 3400)
  /\ res_text home_response = inr home_html
  /\ home_html <> ""
  /\ oracle (Runtime := unparsable_rt) OpRandom 3400 = (1 # 2, 3400)
  /\ oracle (Runtime := unparsable_rt) (OpLoad home_html) 3400
     = (inl parse_error, 3400)
  /\ exists (r : AuditResult) (s' : State),
       runAudit (host := home_host) (rt := unparsable_rt) home
         (start_state unparsable_rt 1000%Z) = (inr r, s')
       /\ error r = Some "parse error"
       /\ status r = Some 200
       /\ totalLinks r = Some 0
       /\ score r = Some 0
       /\ trace s' = [OpNow; OpFetch GET home; OpNow; OpRandom; OpLoad home_html].
Proof.
  assert (Hne : home_html <> "") by discriminate.
  repeat (split; [reflexivity || exact Hne|]).
  destruct (runAudit_parse_failure (host := home_host) (rt := unparsable_rt)
              home (start_state unparsable_rt 1000%Z)
              1000 2200 2200 2200 3400 3400 3400 home_response home_html
              (1 # 2) parse_error
              eq_refl eq_refl eq_refl eq_refl Hne eq_refl eq_refl)
    as (r & s' & E & He & Hs & _ & _ & Hl & _ & _ & _ & Hsc & Ht).
  exists r, s'. repeat split; assumption.
Defined.

(** The page served with an empty body. *)
Lemma runAudit_empty_body_witness :
  oracle (Runtime := site_runtime blank_site) OpNow 1000 = (1000, 2200)
  /\ oracle (Runtime := site_runtime blank_site) (OpFetch GET home) 2200
     = (inr blank_response, 2200)
  /\ oracle (Runtime := site_runtime blank_site) OpNow 2200 = (2200, 3400)
  /\ res_text blank_response = inr ""
  /\ exists (r : AuditResult) (s' : State),
       runAudit (host := home_host) home (at_1000 blank_site) = (inr r, s')
       /\ error r = None
       /\ status r = Some 200
       /\ ttfbMs r = Some 1150
       /\ score r = Some 0
       /\ trace s' = [OpNow; OpFetch GET home; OpNow; OpRandom].
Proof.
  repeat (split; [reflexivity|]).
  destruct (runAudit_empty_body (host := home_host)
              (rt := site_runtime blank_site) home (at_1000 blank_site)
              1000 2200 2200 2200 3400 blank_response
              eq_refl eq_refl eq_refl eq_refl)
    as (r & s' & E & He & Hs & _ & Ht & _ & _ & _ & _ & _ & Hsc & Htr).
  exists r, s'. repeat split; assumption.
Defined.

(** A target that is not a URL. *)
Lemma unparseable_target_witness :
  url_parse (Host := home_host) "not a url" None = None
  /\ safeOrigin (host := home_host) "not a url" = None
  /\ checkRedirects (host := home_host) "not a url" (at_1000 home_site)
     = (inr [], at_1000 home_site).
Proof.
  split; [reflexivity|].
  destruct (unparseable_target (host := home_host) (rt := home_rt)
              "not a url" eq_refl) as (Ho & _ & Hr & _).
  split; [exact Ho|apply Hr].
Defined.

(** The resources of example.com: three requests, robots found. *)
Lemma resources_block_robots_witness :
  truthy "https://example.com" = true
  /\ hasRobots (heap (at_1000 home_site)) = Some false
  /\ exists s' : State,
       resources_block (host := home_host) home (Some "https://example.com")
         (at_1000 home_site) = (inr tt, s')
       /\ trace s'
          = [ OpFetch GET "https://example.com/robots.txt";
              OpFetch GET "https://example.com/sitemap.xml";
              OpFetch GET "https://example.com/sitemap_index.xml" ]
       /\ hasRobots (heap s') = Some true
       /\ error (heap s') = None.
Proof.
  split; [reflexivity|]. split; [reflexivity|].
  destruct (resources_block_robots (host := home_host) (rt := home_rt)
              home "https://example.com" (at_1000 home_site) eq_refl eq_refl)
    as (s' & E & Ht & Hr & He).
  exists s'. split; [exact E|]. split; [exact Ht|]. split; [|exact He].
  apply Hr. eexists _, _. split; reflexivity.
Defined.

(** The route on a well-formed request and on a blank one. *)
Lemma POST_home :
  let run := POST (host := home_host) (rt := home_rt) home_request
               (at_1000 home_site) in
  option_map route_status (match fst run with inr x => Some x | inl _ => None end)
  = Some 200.
Proof. vm_compute. reflexivity. Qed.

Lemma POST_blank :
  POST (host := home_host) (rt := home_rt) blank_request (at_1000 home_site)
  = (inr (NextResponse_json (ErrorBody "Invalid URL") 400), at_1000 home_site).
Proof. vm_compute. reflexivity. Qed.
